(** * mongo_orm: field descriptors, schema registration and dirty tracking

    A shallow embedding of [src/mongo_orm/base.py].

    Modelling conventions.
    - Python values are the inductive [value]; it covers the values the
      module itself creates (None, booleans, strings, field descriptors,
      the [__mappings__] dict, the two bookkeeping lists) and the usual
      user-supplied ones (integers, object ids, functions, opaque objects).
      Floating-point values are not part of the universe.
    - A Python [dict] is an association list in insertion order with
      [dict_set] behaving like [d[k] = v]: an existing key keeps its place.
    - List objects live in a store ([lists]) and are referred to by
      location, because [__modified__] is created once per class and is
      reached from every instance of that class.
    - [logging.debug] calls are recorded as events in [log]; they are the
      only trace [save] leaves of the record it would send to the
      database.
    - Exceptions are the type [exn]; an operation is a function from the
      state to an outcome and the state at the point the operation
      returned or raised.
    - User-supplied callables (validators, default producers) are taken to
      be pure: an environment [call_env] gives the outcome of calling one.
    - Instances are records of their class and their [__dict__]; an
      operation returns the instance as it leaves it.
    - Attribute lookup goes through the instance [__dict__], the class
      namespace and the namespaces of the bases; the attributes every
      object has from [object] and [type] ([__class__], [__dict__],
      [__doc__], ...) are left out.
    - The methods of [Model] are resolved statically, and [self.__mappings__],
      [self.__modified__], [self.__table__] are read from the class: an
      instance [__dict__] that rebinds these names, or a class body that
      overrides the methods of [Model], is outside the model.
    - The class namespace is the one handed to [type.__new__]: the entry
      [__qualname__], which [type.__new__] takes out of it, is still read
      from it; a statement that reads an arbitrary unmapped name excludes
      the names of the form [__x__].
    - [lower] is [str.lower] on names made of ASCII characters; statements
      about the lower-cased name assume such a name. *)

From Stdlib Require Import ZArith String Ascii List Bool Lia.
From stdpp Require Import base option list strings gmap.

Set Warnings "-register-all".

Local Open Scope string_scope.
Local Open Scope Z_scope.
Local Open Scope list_scope.

(** ** Python types and values *)

Inductive pytype :=
| TNoneType | TBool | TInt | TFloat | TStr | TObjectId
| TFunction | TMethod | TList | TDict | TType | TObject
| TMongoField
| TClass (name : string).

(** The attributes [MongoField.__init__] stores on a descriptor
    (base.py 29-39). *)
Record MongoField_ (V : Type) := mkField {
  field_name : string;
  field_type : pytype;
  default : V;
  pk : bool;
  required : bool;
  unique : bool;
  type_check : bool;
  validation : V
}.
Arguments mkField {V}.
Arguments field_name {V}.
Arguments field_type {V}.
Arguments default {V}.
Arguments pk {V}.
Arguments required {V}.
Arguments unique {V}.
Arguments type_check {V}.
Arguments validation {V}.

Inductive value :=
| VNone
| VBool (b : bool)
| VInt (z : Z)
| VStr (s : string)
| VObjectId (oid : string)
| VFunc (f : string)                 (* a def or lambda *)
| VMethod (f : string)               (* a function bound to an instance *)
| VObj (cls : string) (truth : bool) (can_call : bool)
                                     (* instance of a user class [cls] *)
| VType (t : pytype)
| VField (f : MongoField_ value)
| VDict (d : list (string * value))
| VList (l : nat).                   (* reference to a list object *)

Definition MongoField := MongoField_ value.

Definition pytype_eqb (a b : pytype) : bool :=
  match a, b with
  | TNoneType, TNoneType | TBool, TBool | TInt, TInt | TFloat, TFloat
  | TStr, TStr | TObjectId, TObjectId | TFunction, TFunction
  | TMethod, TMethod | TList, TList | TDict, TDict | TType, TType
  | TObject, TObject | TMongoField, TMongoField => true
  | TClass n, TClass m => String.eqb n m
  | _, _ => false
  end.

Definition type_of (v : value) : pytype :=
  match v with
  | VNone => TNoneType
  | VBool _ => TBool
  | VInt _ => TInt
  | VStr _ => TStr
  | VObjectId _ => TObjectId
  | VFunc _ => TFunction
  | VMethod _ => TMethod
  | VObj cls _ _ => TClass cls
  | VType _ => TType
  | VField _ => TMongoField
  | VDict _ => TDict
  | VList _ => TList
  end.

(** [isinstance(v, t)]: every value is an [object], and [bool] is a
    subclass of [int]. *)
Definition isinstance (v : value) (t : pytype) : bool :=
  pytype_eqb t TObject
  || pytype_eqb (type_of v) t
  || (pytype_eqb (type_of v) TBool && pytype_eqb t TInt).

Definition callable (v : value) : bool :=
  match v with
  | VFunc _ | VMethod _ | VType _ => true
  | VObj _ _ c => c
  | _ => false
  end.

Definition is_none (v : value) : bool :=
  match v with VNone => true | _ => false end.

(** ** Dictionaries *)

Section Dict.
Context {V : Type}.

Fixpoint dict_get (d : list (string * V)) (k : string) : option V :=
  match d with
  | [] => None
  | (k', v) :: d' => if String.eqb k' k then Some v else dict_get d' k
  end.

Fixpoint dict_set (d : list (string * V)) (k : string) (v : V)
  : list (string * V) :=
  match d with
  | [] => [(k, v)]
  | (k', v') :: d' =>
      if String.eqb k' k then (k', v) :: d' else (k', v') :: dict_set d' k v
  end.

Definition dict_mem (d : list (string * V)) (k : string) : bool :=
  match dict_get d k with Some _ => true | None => false end.

Fixpoint dict_pop (d : list (string * V)) (k : string) : list (string * V) :=
  match d with
  | [] => []
  | (k', v) :: d' => if String.eqb k' k then d' else (k', v) :: dict_pop d' k
  end.

Definition dict_keys (d : list (string * V)) : list string := map fst d.
End Dict.

(** ** Store, events, exceptions *)

Abbreviation heap := (gmap nat (list string)).

(** [bool(v)]. A list is false when empty, so the store is needed. *)
Definition truthy (h : heap) (v : value) : bool :=
  match v with
  | VNone => false
  | VBool b => b
  | VInt z => negb (z =? 0)
  | VStr s => negb (String.eqb s "")
  | VObjectId _ | VFunc _ | VMethod _ | VType _ | VField _ => true
  | VObj _ t _ => t
  | VDict d => match d with [] => false | _ => true end
  | VList l => match h !!! l with [] => false | _ => true end
  end.

Inductive exn :=
| TypeError_field_name                       (* base.py 28 *)
| TypeError_field_type                       (* base.py 31 *)
| TypeError_not_instance (v : value) (t : pytype)      (* base.py 47 *)
| TypeError_not_callable (v : value)
| RuntimeError_duplicate_pk (k : string)     (* base.py 116 *)
| RuntimeError_pk_not_found                  (* base.py 124 *)
| KeyError (k : string)
| AttributeError (name : string)
| Raised (cls msg : string).                 (* raised by a user callable *)

(** The Python class of each exception. *)
Definition exn_class (e : exn) : string :=
  match e with
  | TypeError_field_name | TypeError_field_type
  | TypeError_not_instance _ _ | TypeError_not_callable _ => "TypeError"
  | RuntimeError_duplicate_pk _ | RuntimeError_pk_not_found => "RuntimeError"
  | KeyError _ => "KeyError"
  | AttributeError _ => "AttributeError"
  | Raised cls _ => cls
  end.

Inductive result (A : Type) :=
| Ok (a : A)
| Err (e : exn).
Arguments Ok {A}.
Arguments Err {A}.

Definition is_ok {A} (r : result A) : bool :=
  match r with Ok _ => true | Err _ => false end.

Inductive event :=
| LogFoundModel (name : string) (table : value)          (* base.py 104 *)
| LogFoundMapping (k : string) (f : MongoField)          (* base.py 112 *)
| LogUsingDefault (k : string) (v : value)               (* base.py 151 *)
| LogValidatePassed                                      (* base.py 158 *)
| LogUpdate (id : value) (set_query : list (string * value))  (* base.py 164 *)
| LogInsert (table : value) (doc : list (string * value)).    (* base.py 167 *)

Record state := mkState {
  lists : heap;
  log : list event
}.

(** ** The monad of operations *)

Definition M (A : Type) : Type := state -> result A * state.

Definition ret {A} (a : A) : M A := fun st => (Ok a, st).
Definition raise {A} (e : exn) : M A := fun st => (Err e, st).
Definition bind {A B} (m : M A) (k : A -> M B) : M B :=
  fun st => match m st with
            | (Ok a, st') => k a st'
            | (Err e, st') => (Err e, st')
            end.
Definition lift {A} (r : result A) : M A := fun st => (r, st).
Definition get_heap : M heap := fun st => (Ok (lists st), st).
Definition logging_debug (e : event) : M unit :=
  fun st => (Ok tt, mkState (lists st) (log st ++ [e])).

Declare Scope py_scope.
Delimit Scope py_scope with py.
Notation "'let!' x ':=' m 'in' k" := (bind m (fun x => k))
  (at level 10, x name, m at level 200, k at level 200) : py_scope.
Notation "m ;;; k" := (bind m (fun _ => k))
  (at level 100, k at level 200, right associativity) : py_scope.
Local Open Scope py_scope.

(** List objects: [[]], [l.append(x)], [l.clear()]. A location that was
    never allocated reads as the empty list. *)
Definition list_new : M nat :=
  fun st => let l := fresh (dom (lists st)) in
            (Ok l, mkState (<[l := []]> (lists st)) (log st)).
Definition list_append (l : nat) (x : string) : M unit :=
  fun st => (Ok tt, mkState (<[l := lists st !!! l ++ [x]]> (lists st))
                     (log st)).
Definition list_clear (l : nat) : M unit :=
  fun st => (Ok tt, mkState (<[l := []]> (lists st)) (log st)).

(** ** Field descriptors *)

Section WithCallables.

(** The outcome of calling a callable value with positional and keyword
    arguments: a returned value, or the class and message of the exception
    it raises. *)
Variable call_env : value -> list value -> list (string * value)
                    -> value + string * string.

Definition py_call (f : value) (args : list value)
    (kwargs : list (string * value)) : result value :=
  if callable f then
    match call_env f args kwargs with
    | inl v => Ok v
    | inr (cls, msg) => Err (Raised cls msg)
    end
  else Err (TypeError_not_callable f).

(** [MongoField.__init__] (base.py 17-39). *)
Definition MongoField_init (h : heap)
    (field_name field_type default pk required unique type_check validation
       : value) : result MongoField :=
  match field_name with
  | VStr name =>
      match field_type with
      | VType t =>
          Ok (mkField name t default (truthy h pk) (truthy h required)
                (truthy h unique) (truthy h type_check) validation)
      | _ => Err TypeError_field_type
      end
  | _ => Err TypeError_field_name
  end.

(** [MongoField.validate] (base.py 44-50). *)
Definition MongoField_validate (h : heap) (self : MongoField) (v : value)
    (kwargs : list (string * value)) : result unit :=
  if type_check self && negb (isinstance v (field_type self))
  then Err (TypeError_not_instance v (field_type self))
  else if truthy h (validation self)
       then match py_call (validation self) [v] kwargs with
            | Ok _ => Ok tt
            | Err e => Err e
            end
       else Ok tt.

(** The typed variants (base.py 53-95), with the keyword defaults of
    their signatures left to the caller. *)
Definition CommonField (h : heap)
    (field_name default required unique validation : value) :=
  MongoField_init h field_name (VType TType) default (VBool false)
    required unique (VBool false) validation.

Definition StringField (h : heap)
    (field_name default required unique type_check validation : value) :=
  MongoField_init h field_name (VType TStr) default (VBool false)
    required unique type_check validation.

Definition IntegerField (h : heap)
    (field_name default required unique type_check validation : value) :=
  MongoField_init h field_name (VType TInt) default (VBool false)
    required unique type_check validation.

Definition BooleanField (h : heap)
    (field_name default required unique type_check validation : value) :=
  MongoField_init h field_name (VType TBool) default (VBool false)
    required unique type_check validation.

Definition FloatField (h : heap)
    (field_name default required unique type_check validation : value) :=
  MongoField_init h field_name (VType TFloat) default (VBool false)
    required unique type_check validation.

Definition _IdField (h : heap) : result MongoField :=
  MongoField_init h (VStr "_id") (VType TObjectId) VNone (VBool true)
    (VBool false) (VBool false) (VBool false) VNone.

(** ** Schema registration *)

(** [str.lower] on the ASCII letters: it agrees with Python's on names
    made of ASCII characters. *)
Definition lower_ascii (c : ascii) : ascii :=
  let n := nat_of_ascii c in
  if (65 <=? n)%nat && (n <=? 90)%nat then ascii_of_nat (n + 32) else c.

Fixpoint lower (s : string) : string :=
  match s with
  | EmptyString => EmptyString
  | String c s' => String (lower_ascii c) (lower s')
  end.

(** [a or b]. *)
Definition py_or (h : heap) (a b : value) : value :=
  if truthy h a then a else b.

(** A registered model class: its name, the namespaces of its bases in
    method-resolution order, the namespace [type.__new__] receives, and
    the objects bound to [__mappings__], [__table__], [__pk__],
    [__fields__] and [__modified__] in that namespace. *)
Record Class := mkClass {
  c_name : string;
  c_bases : list (list (string * value));
  c_dict : list (string * value);
  c_mappings : list (string * MongoField);
  c_table : value;
  c_pk : string;
  c_fields : nat;
  c_modified : nat
}.

Inductive new_type :=
| RootType (name : string) (bases : list (list (string * value)))
    (attrs : list (string * value))
| Registered (c : Class).

(** The local variables of the loop at base.py 110-121: the current
    [attrs], [mappings] and [pk]. *)
Record loop_vars := mkLoop {
  ls_attrs : list (string * value);
  ls_mappings : list (string * MongoField);
  ls_pk : option string
}.

(** Truth value of [pk], which is [None] or an attribute name. *)
Definition pk_truthy (pk : option string) : bool :=
  match pk with
  | Some k => negb (String.eqb k "")
  | None => false
  end.

(** One iteration of the loop (base.py 111-121). *)
Definition register_item (fields : nat) (acc : loop_vars)
    (kv : string * value) : M loop_vars :=
  let '(k, v) := kv in
  match v with
  | VField f =>
      logging_debug (LogFoundMapping k f) ;;;
      let mappings := dict_set (ls_mappings acc) k f in
      let! pk' := (if pk f
                   then if pk_truthy (ls_pk acc)
                        then raise (RuntimeError_duplicate_pk k)
                        else ret (Some k)
                   else ret (ls_pk acc)) in
      ret (mkLoop (dict_set (ls_attrs acc) k (default f)) mappings pk')
  | _ =>
      list_append fields k ;;;
      ret acc
  end.

Fixpoint for_each {A B} (body : A -> B -> M A) (l : list B) (a : A) : M A :=
  match l with
  | [] => ret a
  | x :: l' => let! a' := body a x in for_each body l' a'
  end.

(** [ModelMetaclass.__new__] (base.py 99-132). *)
Definition ModelMetaclass_new (name : string)
    (base : list (list (string * value))) (attrs : list (string * value))
    : M new_type :=
  if String.eqb name "Model" then ret (RootType name base attrs)
  else
    let! h := get_heap in
    let table_name :=
      py_or h (from_option id VNone (dict_get attrs "__table__"))
        (VStr (lower name)) in
    logging_debug (LogFoundModel name table_name) ;;;
    let! fields := list_new in
    let! idf := lift (_IdField h) in
    let attrs := dict_set attrs "_id" (VField idf) in
    let! acc := for_each (register_item fields) attrs (mkLoop attrs [] None) in
    match ls_pk acc with
    | Some pk =>
        if String.eqb pk "" then raise RuntimeError_pk_not_found
        else
          let attrs := dict_set (ls_attrs acc) "__mappings__"
                         (VDict (map (fun '(k, f) => (k, VField f))
                                   (ls_mappings acc))) in
          let attrs := dict_set attrs "__table__" table_name in
          let attrs := dict_set attrs "__pk__" (VStr pk) in
          let attrs := dict_set attrs "__fields__" (VList fields) in
          let! modified := list_new in
          let attrs := dict_set attrs "__modified__" (VList modified) in
          ret (Registered (mkClass name base attrs (ls_mappings acc)
                             table_name pk fields modified))
    | None => raise RuntimeError_pk_not_found
    end.

(** ** Document instances *)

Record Instance := mkInstance {
  i_class : Class;
  i_dict : list (string * value)
}.

(** [cls()]: [Model] defines no [__init__], the instance starts with an
    empty [__dict__]. *)
Definition Model_new (cls : Class) : Instance := mkInstance cls [].

(** Reading a function through an instance yields a bound method. *)
Definition bind_attr (v : value) : value :=
  match v with VFunc f => VMethod f | _ => v end.

Fixpoint mro_lookup (nss : list (list (string * value))) (name : string)
    : option value :=
  match nss with
  | [] => None
  | ns :: nss' =>
      match dict_get ns name with
      | Some v => Some v
      | None => mro_lookup nss' name
      end
  end.

(** Attribute lookup: the instance [__dict__], then the class and its
    bases. *)
Definition py_getattr (self : Instance) (name : string) : option value :=
  match dict_get (i_dict self) name with
  | Some v => Some v
  | None =>
      bind_attr <$> mro_lookup (c_dict (i_class self) :: c_bases (i_class self)) name
  end.

(** [getattr(self, name, d)] and [getattr(self, name)]. *)
Definition getattr_default (self : Instance) (name : string) (d : value)
    : value :=
  from_option id d (py_getattr self name).

Definition getattr (self : Instance) (name : string) : result value :=
  match py_getattr self name with
  | Some v => Ok v
  | None => Err (AttributeError name)
  end.

(** The list [self.__modified__] refers to. *)
Definition dirty_attrs (st : state) (self : Instance) : list string :=
  lists st !!! c_modified (i_class self).

(** [Model.__setattr__] (base.py 136-140). *)
Definition Model_setattr (self : Instance) (key : string) (v : value)
    : M Instance :=
  match dict_get (c_mappings (i_class self)) key with
  | Some f =>
      let! h := get_heap in
      lift (MongoField_validate h f v []) ;;;
      list_append (c_modified (i_class self)) key
  | None => ret tt
  end ;;;
  ret (mkInstance (i_class self) (dict_set (i_dict self) key v)).

(** [Model.get_value_or_default] (base.py 145-153); returns the value and
    the instance as the call leaves it. *)
Definition get_value_or_default (self : Instance) (key : string)
    : M (value * Instance) :=
  let v := getattr_default self key VNone in
  if is_none v then
    match dict_get (c_mappings (i_class self)) key with
    | None => raise (KeyError key)
    | Some field =>
        let! h := get_heap in
        if negb (truthy h (default field)) then
          let! v' := (if callable (default field)
                    then lift (py_call (default field) [] [])
                    else ret (default field)) in
          logging_debug (LogUsingDefault key v') ;;;
          let! self' := Model_setattr self key v' in
          ret (v', self')
        else ret (v, self)
    end
  else ret (v, self).

(** [Model.validate_fields] (base.py 155-158). *)
Definition validate_fields (self : Instance) : M unit :=
  for_each (fun _ '(name, field) =>
              let! h := get_heap in
              lift (MongoField_validate h field
                      (getattr_default self name VNone) []))
           (c_mappings (i_class self)) tt ;;;
  logging_debug LogValidatePassed.

(** [Model.__str__] (base.py 170-174), up to the final [str]: the dict
    that is rendered. *)
Definition Model_str (self : Instance) : M (list (string * value)) :=
  let diction :=
    fold_left (fun d k => dict_set d k (getattr_default self k VNone))
      (dict_keys (c_mappings (i_class self))) [] in
  match dict_get diction "_id" with
  | None => raise (KeyError "_id")
  | Some v =>
      let! h := get_heap in
      if negb (truthy h v) then ret (dict_pop diction "_id") else ret diction
  end.

(** The dict comprehension at base.py 163. *)
Fixpoint set_query (self : Instance) (keys : list string)
    (acc : list (string * value)) : result (list (string * value)) :=
  match keys with
  | [] => Ok acc
  | k :: keys' =>
      match getattr self k with
      | Ok v => set_query self keys' (dict_set acc k v)
      | Err e => Err e
      end
  end.

(** [Model.save] (base.py 160-168). *)
Definition save (self : Instance) : M unit :=
  validate_fields self ;;;
  let! h := get_heap in
  if truthy h (getattr_default self "_id" VNone) then
    let! query := lift (set_query self (h !!! c_modified (i_class self)) []) in
    let! id := lift (getattr self "_id") in
    logging_debug (LogUpdate id query) ;;;
    list_clear (c_modified (i_class self))
  else
    let! doc := Model_str self in
    logging_debug (LogInsert (c_table (i_class self)) doc) ;;;
    list_clear (c_modified (i_class self)).

End WithCallables.

(** ** Definitions used to state the properties *)

(** The descriptor [_IdField()] builds. *)
Definition id_field : MongoField :=
  mkField "_id" TObjectId VNone true false false false VNone.

(** An entry of the class body that holds a primary-key descriptor. *)
Definition is_pk_item (kv : string * value) : bool :=
  match kv.2 with
  | VField f => pk f
  | _ => false
  end.

(** Number of entries of a namespace holding a primary-key descriptor. *)
Fixpoint primary_key_count (attrs : list (string * value)) : nat :=
  match attrs with
  | [] => 0
  | kv :: attrs' =>
      ((if is_pk_item kv then 1 else 0) + primary_key_count attrs')%nat
  end.

(** Whether the loop has recorded a primary key with a true name. *)
Definition pk_seen (acc : loop_vars) : nat :=
  if pk_truthy (ls_pk acc) then 1%nat else 0%nat.

(** The namespace [type.__new__] receives (base.py 127-131). *)
Definition class_namespace (attrs : list (string * value))
    (mappings : list (string * MongoField)) (table : value) (pk : string)
    (fields modified : nat) : list (string * value) :=
  dict_set
    (dict_set
       (dict_set
          (dict_set
             (dict_set attrs "__mappings__"
                (VDict (map (λ '(k, f), (k, VField f)) mappings)))
             "__table__" table)
          "__pk__" (VStr pk))
       "__fields__" (VList fields))
    "__modified__" (VList modified).

(** The state in which the loop starts. *)
Definition loop_start (name : string) (attrs : list (string * value))
    (st : state) : state :=
  mkState (<[fresh (dom (lists st)) := []]> (lists st))
    (log st ++ [LogFoundModel name
                  (py_or (lists st)
                     (from_option id VNone (dict_get attrs "__table__"))
                     (VStr (lower name)))]).


(** What registration guarantees of a class: [_id] is mapped, and every
    mapped name is bound in the class namespace. *)
Definition wf_class (c : Class) : bool :=
  dict_mem (c_mappings c) "_id"
  && forallb (dict_mem (c_dict c)) (dict_keys (c_mappings c)).

Section Documents.
Variable call_env : value -> list value -> list (string * value)
                    -> value + string * string.

(** The check [validate_fields] makes of one mapped field: the
    descriptor's [validate] on the current value, [None] when the
    attribute is absent. *)
Definition field_check (h : heap) (self : Instance)
    (nf : string * MongoField) : result unit :=
  MongoField_validate call_env h nf.2 (getattr_default self nf.1 VNone) [].

(** The first failing check in the order of [__mappings__]. *)
Fixpoint first_failure (h : heap) (self : Instance)
    (m : list (string * MongoField)) : result unit :=
  match m with
  | [] => Ok tt
  | nf :: m' =>
      match field_check h self nf with
      | Ok _ => first_failure h self m'
      | Err e => Err e
      end
  end.

(** Every name in the list [self.__modified__] is a mapped name. *)
Definition dirty_mapped (st : state) (self : Instance) : bool :=
  forallb (dict_mem (c_mappings (i_class self))) (dirty_attrs st self).

(** The instance after an operation: the one it returns, or the
    receiver when it raised. *)
Definition instance_after {A} (self : Instance) (r : result A)
    (new : A -> Instance) : Instance :=
  match r with
  | Ok a => new a
  | Err _ => self
  end.

(** Document instances: an instance of a class that went through
    registration, in a state reached from the class statement by
    constructing instances of the class, by calling [__setattr__],
    [get_value_or_default] and [save] on them, whether the calls return
    or raise, and by steps of the rest of the program that leave the
    list object of the class alone (the class statements of other
    models, the operations on their instances). *)
Inductive document : Instance -> state -> Prop :=
| doc_class name base attrs st c st' :
    ModelMetaclass_new name base attrs st = (Ok (Registered c), st') ->
    document (Model_new c) st'
| doc_new self st :
    document self st ->
    document (Model_new (i_class self)) st
| doc_setattr self st key v r st' :
    document self st ->
    Model_setattr call_env self key v st = (r, st') ->
    document (instance_after self r id) st'
| doc_get_value_or_default self st key r st' :
    document self st ->
    get_value_or_default call_env self key st = (r, st') ->
    document (instance_after self r snd) st'
| doc_save self st r st' :
    document self st ->
    save call_env self st = (r, st') ->
    document self st'
| doc_frame self st st' :
    document self st ->
    lists st' !! c_modified (i_class self)
    = lists st !! c_modified (i_class self) ->
    document self st'.

(** An operation on an instance writes to no list object but the
    [__modified__] of its class. *)
Definition list_step (l : nat) (st st' : state) : Prop :=
  lists st' = lists st \/ exists x, lists st' = <[l := x]> (lists st).
End Documents.

(** ** Example classes *)

(** Two user callables: a default producer and a validator that always
    raises. *)
Definition env0 (f : value) (args : list value)
    (kwargs : list (string * value)) : value + string * string :=
  match f with
  | VFunc "now" => inl (VInt 1700000000)
  | VFunc "reject" => inr ("ValueError", "rejected")
  | _ => inl VNone
  end.

Definition st0 : state := mkState ∅ [].

(** The namespace of [Model] itself, as the base of the example classes. *)
Definition model_ns : list (string * value) :=
  [("__module__", VStr "mongo_orm.base"); ("__qualname__", VStr "Model");
   ("__setattr__", VFunc "Model.__setattr__");
   ("get_value_or_default", VFunc "Model.get_value_or_default");
   ("validate_fields", VFunc "Model.validate_fields");
   ("save", VFunc "Model.save");
   ("__str__", VFunc "Model.__str__")].

(** [StringField('user_name', type_check=True)] and
    [CommonField('test', default=-9999)] of examples/helloworld.py. *)
Definition name_field : MongoField :=
  mkField "user_name" TStr VNone false false false true VNone.
Definition test_field : MongoField :=
  mkField "test" TType (VInt (-9999)) false false false false VNone.

Definition user_body : list (string * value) :=
  [("__module__", VStr "helloworld"); ("__qualname__", VStr "User");
   ("name", VField name_field); ("test_field", VField test_field)].

(** The class object registration builds for [User]. *)
Definition User : Class :=
  mkClass "User" [model_ns]
    [("__module__", VStr "helloworld"); ("__qualname__", VStr "User");
     ("name", VNone); ("test_field", VInt (-9999)); ("_id", VNone);
     ("__mappings__",
      VDict [("name", VField name_field); ("test_field", VField test_field);
             ("_id", VField id_field)]);
     ("__table__", VStr "user"); ("__pk__", VStr "_id");
     ("__fields__", VList 0); ("__modified__", VList 1)]
    [("name", name_field); ("test_field", test_field); ("_id", id_field)]
    (VStr "user") "_id" 0 1.

(** The state after the class statement of [User]. *)
Definition st_user : state :=
  (ModelMetaclass_new "User" [model_ns] user_body st0).2.

(** A class whose body declares its own primary key under [_id]:
    [_id = MongoField('uid', int, None, True, False, False, False, None)]. *)
Definition uid_field : MongoField :=
  mkField "uid" TInt VNone true false false false VNone.

Definition account_body : list (string * value) :=
  [("__module__", VStr "accounts"); ("__qualname__", VStr "Account");
   ("_id", VField uid_field)].

(** A class with a callable default:
    [created = CommonField('created', default=now)]. *)
Definition created_field : MongoField :=
  mkField "created" TType (VFunc "now") false false false false VNone.

Definition event_body : list (string * value) :=
  [("__module__", VStr "events"); ("__qualname__", VStr "Event");
   ("created", VField created_field)].

Definition Event : Class :=
  mkClass "Event" [model_ns]
    [("__module__", VStr "events"); ("__qualname__", VStr "Event");
     ("created", VFunc "now"); ("_id", VNone);
     ("__mappings__",
      VDict [("created", VField created_field); ("_id", VField id_field)]);
     ("__table__", VStr "event"); ("__pk__", VStr "_id");
     ("__fields__", VList 0); ("__modified__", VList 1)]
    [("created", created_field); ("_id", id_field)]
    (VStr "event") "_id" 0 1.

Definition st_event : state :=
  (ModelMetaclass_new "Event" [model_ns] event_body st0).2.

(** A [User] whose name was set, and the state after that write. *)
Definition user_jett : Instance := mkInstance User [("name", VStr "jett")].

Definition st_jett : state :=
  (Model_setattr env0 (Model_new User) "name" (VStr "jett") st_user).2.

(** A [User] given the identity [0]: [u.name = 'jett'; u._id = 0]. *)
Definition user_zero : Instance :=
  mkInstance User [("name", VStr "jett"); ("_id", VInt 0)].

Definition st_zero : state :=
  (Model_setattr env0 user_jett "_id" (VInt 0) st_jett).2.

(** ** Definitions for the properties of registration *)

(** The five names [ModelMetaclass.__new__] binds on the class after the
    loop (base.py 127-131). *)
Definition bookkeeping (k : string) : bool :=
  existsb (String.eqb k)
    ["__mappings__"; "__table__"; "__pk__"; "__fields__"; "__modified__"].

(** A name made of ASCII characters, on which [lower] is [str.lower]. *)
Fixpoint is_ascii (s : string) : bool :=
  match s with
  | EmptyString => true
  | String c s' => (nat_of_ascii c <? 128)%nat && is_ascii s'
  end.

(** A name of the form [__x__]: the names under which [object] and
    [type.__new__] keep attributes of their own ([__class__],
    [__dict__], [__doc__], ...) or take entries out of the namespace
    ([__qualname__]). *)
Definition dunder (k : string) : bool :=
  String.prefix "__" k
  && String.eqb (String.substring (String.length k - 2) 2 k) "__".

(** The entries of a namespace that hold a field descriptor, and the
    names of the other entries, both in the order of the namespace. *)
Fixpoint field_items (attrs : list (string * value))
    : list (string * MongoField) :=
  match attrs with
  | [] => []
  | (k, VField f) :: attrs' => (k, f) :: field_items attrs'
  | _ :: attrs' => field_items attrs'
  end.

Fixpoint plain_keys (attrs : list (string * value)) : list string :=
  match attrs with
  | [] => []
  | (_, VField _) :: attrs' => plain_keys attrs'
  | (k, _) :: attrs' => k :: plain_keys attrs'
  end.

(** A [User] with an identity: [u._id = ObjectId(...)] after the name
    was set, and the state after that write. *)
Definition user_oid : value := VObjectId "5ff6d0c8e4b0a1b2c3d4e5f6".

Definition user_stored : Instance :=
  mkInstance User [("name", VStr "jett"); ("_id", user_oid)].

Definition st_stored : state :=
  (Model_setattr env0 user_jett "_id" user_oid st_jett).2.



(** A body declaring its own primary key under another name than [_id]:
    [uid = MongoField('uid', int, None, True, False, False, False, None)]. *)
Definition member_body : list (string * value) :=
  [("__module__", VStr "members"); ("__qualname__", VStr "Member");
   ("uid", VField uid_field)].

(** A descriptor built by one of the typed variants (base.py 53-90). *)
Definition typed_variant (f : MongoField) : Prop :=
  exists h field_name default required unique type_check validation,
    CommonField h field_name default required unique validation = Ok f
    \/ StringField h field_name default required unique type_check validation
       = Ok f
    \/ IntegerField h field_name default required unique type_check validation
       = Ok f
    \/ BooleanField h field_name default required unique type_check validation
       = Ok f
    \/ FloatField h field_name default required unique type_check validation
       = Ok f.

(** Two more writes of the name, and a save, on the stored [User]. *)
Definition user_ann : Instance :=
  mkInstance User [("name", VStr "ann"); ("_id", user_oid)].

Definition st_ann : state :=
  (Model_setattr env0 user_stored "name" (VStr "ann") st_stored).2.

Definition user_bob : Instance :=
  mkInstance User [("name", VStr "bob"); ("_id", user_oid)].

Definition st_bob : state :=
  (Model_setattr env0 user_ann "name" (VStr "bob") st_ann).2.

Definition st_saved : state := (save env0 user_stored st_stored).2.

(** Another [User], written after the first one was stored. *)
Definition user_zed : Instance := mkInstance User [("name", VStr "zed")].

Definition st_zed : state :=
  (Model_setattr env0 (Model_new User) "name" (VStr "zed") st_stored).2.

(** The classes built by the class statements of [Event] and of [Admin]
    when they come after the write to [user_jett]: their lists are the
    third and fourth list objects. *)
Definition Event_later : Class :=
  mkClass "Event" [model_ns]
    [("__module__", VStr "events"); ("__qualname__", VStr "Event");
     ("created", VFunc "now"); ("_id", VNone);
     ("__mappings__",
      VDict [("created", VField created_field); ("_id", VField id_field)]);
     ("__table__", VStr "event"); ("__pk__", VStr "_id");
     ("__fields__", VList 2); ("__modified__", VList 3)]
    [("created", created_field); ("_id", id_field)]
    (VStr "event") "_id" 2 3.

Definition st_event_later : state :=
  (ModelMetaclass_new "Event" [model_ns] event_body st_jett).2.


(** * Properties *)

(** ** The monad *)

(** Resolving a default ([field.default()] or [field.default]) leaves the
    state as it is. *)
Ltac resolved_state H :=
  match type of H with
  | (if callable ?d then _ else _) ?st = (_, ?st1) =>
      assert (st1 = st) as ->
        by (destruct (callable d); unfold lift, ret in H; by injection H)
  end.

Lemma bind_eq {A B} (m : M A) (k : A → M B) (st : state) :
  bind m k st
  = match m st with
    | (Ok a, st') => k a st'
    | (Err e, st') => (Err e, st')
    end.
Proof. reflexivity. Qed.

(** ** Dictionaries *)

Section DictFacts.
Context {V : Type}.
Implicit Types (d : list (string * V)) (k : string) (v : V).

Lemma dict_get_set_eq d k v : dict_get (dict_set d k v) k = Some v.
Proof.
  induction d as [|[k' v'] d IH]; simpl.
  - by rewrite String.eqb_refl.
  - destruct (String.eqb k' k) eqn:E; simpl; rewrite E; auto.
Qed.

Lemma dict_get_set_ne d k k' v :
  k ≠ k' → dict_get (dict_set d k v) k' = dict_get d k'.
Proof.
  intros Hne. induction d as [|[k0 v0] d IH]; simpl.
  - apply String.eqb_neq in Hne. by rewrite Hne.
  - destruct (String.eqb k0 k) eqn:E; simpl.
    + apply String.eqb_eq in E. subst k0.
      apply String.eqb_neq in Hne. by rewrite Hne.
    + by rewrite IH.
Qed.

Lemma dict_get_None d k : dict_get d k = None ↔ k ∉ dict_keys d.
Proof.
  unfold dict_keys. induction d as [|[k' v'] d IH]; simpl.
  - split; [intros _; apply not_elem_of_nil | done].
  - rewrite not_elem_of_cons. destruct (String.eqb k' k) eqn:E.
    + apply String.eqb_eq in E. subst. split; [done | intros [? _]; done].
    + apply String.eqb_neq in E. rewrite IH. split; [by intros; split | by intros [_ ?]].
Qed.

Lemma dict_get_Some_elem d k v : dict_get d k = Some v → (k, v) ∈ d.
Proof.
  induction d as [|[k' v'] d IH]; simpl; [done|].
  destruct (String.eqb k' k) eqn:E.
  - apply String.eqb_eq in E. intros [= ->]. subst. by left.
  - intros H. right. auto.
Qed.

Lemma dict_mem_set d k k' v :
  dict_mem d k' = true → dict_mem (dict_set d k v) k' = true.
Proof.
  unfold dict_mem. destruct (decide (k = k')) as [->|Hne].
  - by rewrite dict_get_set_eq.
  - by rewrite dict_get_set_ne.
Qed.

Lemma dict_mem_set_eq d k v : dict_mem (dict_set d k v) k = true.
Proof. unfold dict_mem. by rewrite dict_get_set_eq. Qed.

(** [d[k] = v] leaves one entry for [k], in the place of the old one or
    at the end. *)
Lemma dict_set_split d k v :
  ∃ pre post,
    dict_set d k v = pre ++ ((k, v) :: post)
    ∧ (k ∉ dict_keys pre)
    ∧ ((d = pre ∧ post = []) ∨ ∃ v0, d = pre ++ (k, v0) :: post).
Proof.
  induction d as [|[k' v'] d IH]; simpl.
  - exists [], []. split; [done|]. split; [apply not_elem_of_nil | by left].
  - destruct (String.eqb k' k) eqn:E.
    + apply String.eqb_eq in E. subst k'.
      exists [], d. split; [done|]. split; [apply not_elem_of_nil|].
      right. by exists v'.
    + apply String.eqb_neq in E.
      destruct IH as (pre & post & Heq & Hnin & Hd).
      exists ((k', v') :: pre), post. rewrite Heq. split; [done|].
      split.
      * unfold dict_keys in *. simpl. rewrite not_elem_of_cons. done.
      * destruct Hd as [[-> ->]|[v0 ->]]; [by left | right; by exists v0].
Qed.

Lemma dict_set_elem_ne d k v k' v' :
  k ≠ k' → (k', v') ∈ d → (k', v') ∈ dict_set d k v.
Proof.
  intros Hne. induction d as [|[k0 v0] d IH]; simpl.
  { intros Hin. by apply elem_of_nil in Hin. }
  intros Hin. apply elem_of_cons in Hin.
  destruct (String.eqb k0 k) eqn:E.
  - apply String.eqb_eq in E. subst k0.
    destruct Hin as [[=]|Hin]; [congruence | by right].
  - destruct Hin as [<-|Hin]; [by left | right; auto].
Qed.

Lemma dict_keys_set_nodup d k v :
  NoDup (dict_keys d) → NoDup (dict_keys (dict_set d k v)).
Proof.
  unfold dict_keys. induction d as [|[k' v'] d IH]; simpl.
  - intros _. apply NoDup_singleton.
  - intros Hnd. apply NoDup_cons in Hnd as [Hnin Hnd].
    destruct (String.eqb k' k) eqn:E; simpl.
    + by apply NoDup_cons.
    + apply NoDup_cons. split; [|auto].
      apply String.eqb_neq in E.
      fold (dict_keys (dict_set d k v)). apply dict_get_None.
      rewrite dict_get_set_ne by done. by apply dict_get_None.
Qed.

Lemma dict_set_elem_inv d k v k' v' :
  (k', v') ∈ dict_set d k v → (k' = k ∧ v' = v) ∨ (k', v') ∈ d.
Proof.
  induction d as [|[k0 v0] d IH]; simpl.
  - intros H. apply list_elem_of_singleton in H. injection H as -> ->.
    by left.
  - destruct (String.eqb k0 k) eqn:E.
    + apply String.eqb_eq in E. subst k0. intros H.
      apply elem_of_cons in H as [[= -> ->]|H]; [by left|].
      right. by right.
    + intros H. apply elem_of_cons in H as [[= -> ->]|H].
      * right. by left.
      * destruct (IH H) as [?|?]; [by left | right; by right].
Qed.

Lemma dict_get_pop d k k' :
  NoDup (dict_keys d) →
  dict_get (dict_pop d k) k'
  = if String.eqb k k' then None else dict_get d k'.
Proof.
  unfold dict_keys. induction d as [|[k0 v0] d IH]; simpl; intros Hnd.
  - by destruct (String.eqb k k').
  - apply NoDup_cons in Hnd as [Hnin Hnd].
    destruct (String.eqb k0 k) eqn:E.
    + apply String.eqb_eq in E. subst k0.
      destruct (String.eqb k k') eqn:E'; [|done].
      apply String.eqb_eq in E'. subst k'. by apply dict_get_None.
    + simpl. rewrite IH by done.
      destruct (String.eqb k0 k') eqn:E'; [|done].
      apply String.eqb_eq in E'. subst k'.
      rewrite String.eqb_sym. by rewrite E.
Qed.

Lemma dict_mem_elem d k : dict_mem d k = true ↔ k ∈ dict_keys d.
Proof.
  unfold dict_mem. destruct (dict_get d k) eqn:Hget.
  - split; [|done]. intros _. apply dict_get_Some_elem in Hget.
    by apply (list_elem_of_fmap_2 fst) in Hget.
  - apply dict_get_None in Hget. split; [done | intros; by exfalso].
Qed.

Lemma dict_keys_elem d k v : (k, v) ∈ d → k ∈ dict_keys d.
Proof. intros H. by apply (list_elem_of_fmap_2 fst) in H. Qed.
End DictFacts.

(** ** Field validation *)

Section ValidateFacts.
Variable call_env : value -> list value -> list (string * value)
                    -> value + string * string.


End ValidateFacts.

(** ** Schema registration *)

Section RegistrationFacts.
Implicit Types (attrs l : list (string * value)) (acc : loop_vars)
  (st : state) (k name : string).

Lemma _IdField_eq h : _IdField h = Ok id_field.
Proof. reflexivity. Qed.

Lemma for_each_app {A B} (body : A → B → M A) (l1 l2 : list B) a st :
  for_each body (l1 ++ l2) a st
  = match for_each body l1 a st with
    | (Ok a', st') => for_each body l2 a' st'
    | (Err e, st') => (Err e, st')
    end.
Proof.
  revert a st. induction l1 as [|x l1 IH]; intros a st; simpl; [done|].
  unfold bind. destruct (body a x st) as [[a'|e] st']; [apply IH | done].
Qed.

Lemma for_each_cons {A B} (body : A → B → M A) (x : B) (l : list B) a st :
  for_each body (x :: l) a st
  = match body a x st with
    | (Ok a', st') => for_each body l a' st'
    | (Err e, st') => (Err e, st')
    end.
Proof. reflexivity. Qed.

Lemma primary_key_count_app l1 l2 :
  primary_key_count (l1 ++ l2)
  = (primary_key_count l1 + primary_key_count l2)%nat.
Proof. induction l1 as [|kv l1 IH]; simpl; [done | rewrite IH; lia]. Qed.

(** One iteration, by cases on the entry. *)
Lemma register_item_field fields acc k (f : MongoField) st :
  register_item fields acc (k, VField f) st
  = let st' := mkState (lists st) (log st ++ [LogFoundMapping k f]) in
    if pk f && pk_truthy (ls_pk acc)
    then (Err (RuntimeError_duplicate_pk k), st')
    else (Ok (mkLoop (dict_set (ls_attrs acc) k (default f))
                (dict_set (ls_mappings acc) k f)
                (if pk f then Some k else ls_pk acc)), st').
Proof.
  unfold register_item, bind, logging_debug; simpl.
  destruct (pk f); simpl; [|done]. by destruct (pk_truthy (ls_pk acc)).
Qed.

Lemma register_item_other fields acc k v st :
  (∀ f, v ≠ VField f) →
  register_item fields acc (k, v) st
  = (Ok acc, mkState (<[fields := lists st !!! fields ++ [k]]> (lists st))
               (log st)).
Proof. intros Hv. destruct v; try done. by destruct (Hv f). Qed.

(** The loop raises nothing but the duplicate-key error. *)
Lemma register_loop_errors fields l acc st e :
  (for_each (register_item fields) l acc st).1 = Err e →
  ∃ k, e = RuntimeError_duplicate_pk k.
Proof.
  revert acc st. induction l as [|[k v] l IH]; intros acc st; [done|].
  rewrite for_each_cons.
  destruct (register_item fields acc (k, v) st) as [[acc'|e'] st'] eqn:Hit.
  - apply IH.
  - simpl. intros [= ->].
    destruct v; try (by rewrite register_item_other in Hit).
    rewrite register_item_field in Hit. simpl in Hit.
    destruct (pk f && pk_truthy (ls_pk acc)); [|done].
    injection Hit as <- _. eauto.
Qed.

(** Once a primary key with a true name is recorded, the loop keeps it
    or raises. *)
Lemma register_loop_pk_kept fields l acc st acc' :
  pk_truthy (ls_pk acc) = true →
  (for_each (register_item fields) l acc st).1 = Ok acc' →
  ls_pk acc' = ls_pk acc.
Proof.
  revert acc st. induction l as [|[k v] l IH]; intros acc st Hpk.
  { by intros [= ->]. }
  rewrite for_each_cons.
  destruct (register_item fields acc (k, v) st) as [[acc1|e'] st'] eqn:Hit;
    [|done].
  assert (ls_pk acc1 = ls_pk acc) as Hkeep.
  { destruct v; try (rewrite register_item_other in Hit by done;
                     by injection Hit as <- _).
    rewrite register_item_field in Hit. simpl in Hit. rewrite Hpk in Hit.
    destruct (pk f); simpl in Hit; [done|]. by injection Hit as <- _. }
  intros H. rewrite <- Hkeep. eapply IH; [by rewrite Hkeep | done].
Qed.

(** With no primary-key descriptor under the empty name, the loop
    succeeds exactly when it meets at most one primary key, counting the
    one already recorded. *)
Lemma register_loop_count fields l acc st :
  (∀ k v, (k, v) ∈ l → is_pk_item (k, v) = true → k ≠ "") →
  ls_pk acc ≠ Some "" →
  match (for_each (register_item fields) l acc st).1 with
  | Ok acc' =>
      (pk_seen acc + primary_key_count l ≤ 1)%nat
      ∧ pk_seen acc' = (pk_seen acc + primary_key_count l)%nat
      ∧ ls_pk acc' ≠ Some ""
  | Err _ => (2 ≤ pk_seen acc + primary_key_count l)%nat
  end.
Proof.
  revert acc st. induction l as [|[k v] l IH]; intros acc st Hne Hacc.
  { simpl. split; [unfold pk_seen; destruct (pk_truthy _); lia|].
    split; [lia|done]. }
  rewrite for_each_cons. cbn [primary_key_count].
  assert (∀ k0 v0, (k0, v0) ∈ l → is_pk_item (k0, v0) = true → k0 ≠ "")
    as Hne' by (intros ????; eapply Hne; [by right | done]).
  destruct v;
    try (rewrite register_item_other by done; simpl;
         by specialize (IH acc
              (mkState (<[fields := lists st !!! fields ++ [k]]> (lists st))
                 (log st)) Hne' Hacc)).
  rewrite register_item_field. cbn zeta.
  assert (is_pk_item (k, VField f) = pk f) as Hitem by done.
  rewrite Hitem.
  destruct (pk f) eqn:Hpk; simpl.
  - destruct (pk_truthy (ls_pk acc)) eqn:Hseen; simpl.
    + unfold pk_seen. rewrite Hseen. lia.
    + assert (k ≠ "") as Hk by (eapply Hne; [by left | by rewrite Hitem]).
      match goal with
      | |- context [for_each _ l ?a ?s] => specialize (IH a s Hne')
      end.
      unfold pk_seen in *. simpl in IH. rewrite Hseen.
      apply String.eqb_neq in Hk. rewrite Hk in IH. simpl in IH.
      apply IH. intros [= ->]. by rewrite String.eqb_refl in Hk.
  - match goal with
    | |- context [for_each _ l ?a ?s] => specialize (IH a s Hne' Hacc)
    end.
    unfold pk_seen in *. simpl in IH. apply IH.
Qed.

(** Induction over the iterations that do not raise. *)
Lemma register_loop_invariant (P : loop_vars → Prop) fields l acc st acc' :
  (∀ a k (f : MongoField),
      P a → (k, VField f) ∈ l → pk f && pk_truthy (ls_pk a) = false →
      P (mkLoop (dict_set (ls_attrs a) k (default f))
           (dict_set (ls_mappings a) k f)
           (if pk f then Some k else ls_pk a))) →
  P acc →
  (for_each (register_item fields) l acc st).1 = Ok acc' →
  P acc'.
Proof.
  revert acc st. induction l as [|[k v] l IH]; intros acc st Hstep HP.
  { by intros [= <-]. }
  rewrite for_each_cons.
  assert (∀ a k0 (f : MongoField),
      P a → (k0, VField f) ∈ l → pk f && pk_truthy (ls_pk a) = false →
      P (mkLoop (dict_set (ls_attrs a) k0 (default f))
           (dict_set (ls_mappings a) k0 f)
           (if pk f then Some k0 else ls_pk a))) as Hstep'
    by (intros ??????; apply Hstep; [done | by right | done]).
  destruct v;
    try (rewrite register_item_other by done; by apply IH).
  rewrite register_item_field. cbn zeta.
  destruct (pk f && pk_truthy (ls_pk acc)) eqn:Hdup; [done|].
  apply IH; [done|]. apply Hstep; [done | by left | done].
Qed.

Lemma register_loop_mappings_mem fields l acc st acc' k :
  dict_mem (ls_mappings acc) k = true →
  (for_each (register_item fields) l acc st).1 = Ok acc' →
  dict_mem (ls_mappings acc') k = true.
Proof.
  apply (register_loop_invariant
           (λ a, dict_mem (ls_mappings a) k = true)).
  intros a k0 f Ha _ _. simpl. by apply dict_mem_set.
Qed.

Lemma register_loop_mappings_other fields l acc st acc' k :
  k ∉ dict_keys l →
  (for_each (register_item fields) l acc st).1 = Ok acc' →
  dict_get (ls_mappings acc') k = dict_get (ls_mappings acc) k.
Proof.
  intros Hk.
  apply (register_loop_invariant
           (λ a, dict_get (ls_mappings a) k = dict_get (ls_mappings acc) k));
    [|done].
  intros a k0 f Ha Hin _. simpl. rewrite dict_get_set_ne; [done|].
  intros ->. apply Hk. unfold dict_keys.
  apply (list_elem_of_fmap_2 fst) in Hin. done.
Qed.

(** Every mapped name is bound in the namespace being built. *)
Lemma register_loop_bound fields l acc st acc' :
  (∀ k, dict_mem (ls_mappings acc) k = true →
        dict_mem (ls_attrs acc) k = true) →
  (for_each (register_item fields) l acc st).1 = Ok acc' →
  ∀ k, dict_mem (ls_mappings acc') k = true →
       dict_mem (ls_attrs acc') k = true.
Proof.
  apply (register_loop_invariant
           (λ a, ∀ k, dict_mem (ls_mappings a) k = true →
                      dict_mem (ls_attrs a) k = true)).
  intros a k0 f Ha _ _ k. simpl. destruct (decide (k0 = k)) as [->|Hne].
  - intros _. apply dict_mem_set_eq.
  - unfold dict_mem at 1. rewrite dict_get_set_ne by done.
    intros H. apply dict_mem_set. by apply Ha.
Qed.

(** The loop over a namespace in which [_id] holds the identity
    descriptor: it raises the duplicate-key error, or ends with [_id]
    as the primary key and as a mapped name. *)
Lemma register_loop_injected fields attrs acc st :
  match (for_each (register_item fields)
           (dict_set attrs "_id" (VField id_field)) acc st).1 with
  | Ok acc' =>
      ls_pk acc' = Some "_id" ∧ dict_mem (ls_mappings acc') "_id" = true
  | Err e => ∃ k, e = RuntimeError_duplicate_pk k
  end.
Proof.
  destruct (for_each _ _ acc st) as [[acc'|e] st'] eqn:Hloop; simpl;
    [|eapply register_loop_errors; by rewrite Hloop].
  destruct (dict_set_split attrs "_id" (VField id_field))
    as (pre & post & Hsplit & _ & _).
  rewrite Hsplit, for_each_app in Hloop.
  destruct (for_each _ pre acc st) as [[acc1|e1] st1]; [|done].
  rewrite for_each_cons, register_item_field in Hloop. cbn zeta in Hloop.
  change (pk id_field) with true in Hloop. simpl in Hloop.
  destruct (pk_truthy (ls_pk acc1)); [done|].
  match type of Hloop with
  | for_each _ post ?a ?s = _ =>
      pose proof (register_loop_pk_kept fields post a s acc') as Hkept;
      pose proof (register_loop_mappings_mem fields post a s acc' "_id")
        as Hmem
  end.
  rewrite Hloop in Hkept, Hmem. simpl in Hkept, Hmem. split.
  - by apply Hkept.
  - apply Hmem; [apply dict_mem_set_eq | done].
Qed.

Lemma ModelMetaclass_new_unfold name base attrs st :
  name ≠ "Model" →
  let table := py_or (lists st)
                 (from_option id VNone (dict_get attrs "__table__"))
                 (VStr (lower name)) in
  let fields := fresh (dom (lists st)) in
  let attrs1 := dict_set attrs "_id" (VField id_field) in
  ModelMetaclass_new name base attrs st
  = match for_each (register_item fields) attrs1 (mkLoop attrs1 [] None)
            (loop_start name attrs st) with
    | (Ok acc, st2) =>
        match ls_pk acc with
        | Some pk =>
            if String.eqb pk "" then (Err RuntimeError_pk_not_found, st2)
            else
              let modified := fresh (dom (lists st2)) in
              (Ok (Registered
                     (mkClass name base
                        (class_namespace (ls_attrs acc) (ls_mappings acc)
                           table pk fields modified)
                        (ls_mappings acc) table pk fields modified)),
               mkState (<[modified := []]> (lists st2)) (log st2))
        | None => (Err RuntimeError_pk_not_found, st2)
        end
    | (Err e, st2) => (Err e, st2)
    end.
Proof.
  intros Hname. apply String.eqb_neq in Hname.
  unfold ModelMetaclass_new. rewrite Hname.
  unfold bind, get_heap, logging_debug, list_new, lift, loop_start,
    class_namespace; simpl.
  destruct (for_each _ _ _ _) as [[acc|e] st2]; [|done].
  destruct (ls_pk acc) as [pk|]; [|done].
  by destruct (String.eqb pk "").
Qed.

(** The only exception registration raises is the duplicate-key one. *)
Lemma ModelMetaclass_new_errors name base attrs st e :
  (ModelMetaclass_new name base attrs st).1 = Err e →
  ∃ k, e = RuntimeError_duplicate_pk k.
Proof.
  destruct (decide (name = "Model")) as [->|Hname]; [done|].
  rewrite ModelMetaclass_new_unfold by done. cbn zeta.
  pose proof (register_loop_injected (fresh (dom (lists st))) attrs
                (mkLoop (dict_set attrs "_id" (VField id_field)) [] None)
                (loop_start name attrs st)) as Hloop.
  destruct (for_each _ _ _ _) as [[acc|e'] st2]; simpl in *.
  - destruct Hloop as [-> _]. done.
  - intros [= <-]. done.
Qed.

(** C10. Registration never raises 'Primary key not found': whatever
    the class body, the only exception it raises is the duplicate
    primary-key error. *)
Theorem C10_pk_not_found_unreachable name base attrs st :
  (ModelMetaclass_new name base attrs st).1 ≠ Err RuntimeError_pk_not_found
  ∧ ∀ e, (ModelMetaclass_new name base attrs st).1 = Err e →
         ∃ k, e = RuntimeError_duplicate_pk k.
Proof.
  split; [|apply ModelMetaclass_new_errors].
  intros H. by destruct (ModelMetaclass_new_errors _ _ _ _ _ H).
Qed.

Lemma primary_key_count_elem l k (f : MongoField) :
  (k, VField f) ∈ l → pk f = true → (1 ≤ primary_key_count l)%nat.
Proof.
  induction l as [|kv l IH]; intros Hin Hpk.
  { by apply elem_of_nil in Hin. }
  apply elem_of_cons in Hin as [<-|Hin]; simpl.
  - unfold is_pk_item. simpl. rewrite Hpk. lia.
  - specialize (IH Hin Hpk). lia.
Qed.

Lemma primary_key_count_injected attrs :
  (1 ≤ primary_key_count (dict_set attrs "_id" (VField id_field)))%nat.
Proof.
  apply (primary_key_count_elem _ "_id" id_field); [|done].
  apply dict_get_Some_elem, dict_get_set_eq.
Qed.

(** A primary-key descriptor declared under another name than [_id]
    makes a second one next to the injected descriptor. *)
Lemma primary_key_count_explicit attrs k (f : MongoField) :
  (k, VField f) ∈ attrs → pk f = true → k ≠ "_id" →
  (2 ≤ primary_key_count (dict_set attrs "_id" (VField id_field)))%nat.
Proof.
  intros Hin Hpk Hk.
  apply (dict_set_elem_ne _ "_id" (VField id_field)) in Hin; [|done].
  destruct (dict_set_split attrs "_id" (VField id_field))
    as (pre & post & Hsplit & _ & _).
  rewrite Hsplit in Hin |- *. rewrite primary_key_count_app. simpl.
  apply elem_of_app in Hin as [Hin|Hin].
  - pose proof (primary_key_count_elem _ _ _ Hin Hpk).
    change (is_pk_item ("_id", VField id_field)) with true. lia.
  - apply elem_of_cons in Hin as [[=]|Hin]; [done|].
    pose proof (primary_key_count_elem _ _ _ Hin Hpk).
    change (is_pk_item ("_id", VField id_field)) with true. lia.
Qed.

(** Registration succeeds exactly when the loop over the injected
    namespace does. *)
Lemma ModelMetaclass_new_ok_iff name base attrs st :
  name ≠ "Model" →
  is_ok (ModelMetaclass_new name base attrs st).1
  = is_ok (for_each (register_item (fresh (dom (lists st))))
             (dict_set attrs "_id" (VField id_field))
             (mkLoop (dict_set attrs "_id" (VField id_field)) [] None)
             (loop_start name attrs st)).1.
Proof.
  intros Hname. rewrite ModelMetaclass_new_unfold by done. cbn zeta.
  pose proof (register_loop_injected (fresh (dom (lists st))) attrs
                (mkLoop (dict_set attrs "_id" (VField id_field)) [] None)
                (loop_start name attrs st)) as Hloop.
  destruct (for_each _ _ _ _) as [[acc|e] st2]; simpl in *; [|done].
  by destruct Hloop as [-> _].
Qed.

(** C1 (amended). For a type whose name is not [Model] and a class body
    with no primary-key descriptor under the empty name, registration
    succeeds if and only if exactly one entry of the namespace holds a
    primary-key descriptor once [_id] has been bound to the identity
    descriptor (which replaces whatever the body declared under [_id]).
    In particular a primary-key descriptor declared under any name other
    than [_id] makes registration raise the duplicate primary-key
    error. *)
Theorem C1_registration_single_pk name base attrs st :
  name ≠ "Model" →
  (∀ f : MongoField, ("", VField f) ∈ attrs → pk f = false) →
  (is_ok (ModelMetaclass_new name base attrs st).1 = true
     ↔ primary_key_count (dict_set attrs "_id" (VField id_field)) = 1%nat)
  ∧ (∀ k (f : MongoField),
       (k, VField f) ∈ attrs → pk f = true → k ≠ "_id" →
       ∃ k', (ModelMetaclass_new name base attrs st).1
             = Err (RuntimeError_duplicate_pk k')).
Proof.
  intros Hname Hempty.
  assert (is_ok (ModelMetaclass_new name base attrs st).1 = true
          ↔ primary_key_count (dict_set attrs "_id" (VField id_field))
            = 1%nat) as Hiff.
  { rewrite ModelMetaclass_new_ok_iff by done.
    pose proof (primary_key_count_injected attrs) as Hpos.
    pose proof (register_loop_count (fresh (dom (lists st)))
                  (dict_set attrs "_id" (VField id_field))
                  (mkLoop (dict_set attrs "_id" (VField id_field)) [] None)
                  (loop_start name attrs st)) as Hcount.
    simpl in Hcount.
    assert (∀ k v, (k, v) ∈ dict_set attrs "_id" (VField id_field) →
                   is_pk_item (k, v) = true → k ≠ "") as Hne.
    { intros k v Hin Hpk ->. apply dict_set_elem_inv in Hin as [[? _]|Hin].
      - done.
      - unfold is_pk_item in Hpk. simpl in Hpk.
        destruct v as [| | | | | | | | |f| |]; try done.
        by rewrite (Hempty f Hin) in Hpk. }
    specialize (Hcount Hne ltac:(done)).
    destruct (for_each _ _ _ _).1; simpl.
    - destruct Hcount as (Hle & _ & _). unfold pk_seen in Hle.
      simpl in Hle. split; [lia | done].
    - unfold pk_seen in Hcount. simpl in Hcount. split; [done | lia]. }
  split; [done|].
  intros k f Hin Hpk Hk.
  pose proof (primary_key_count_explicit attrs k f Hin Hpk Hk) as Htwo.
  destruct (ModelMetaclass_new name base attrs st).1 as [nt|e] eqn:Hres.
  - simpl in Hiff. destruct Hiff as [Hone _]. specialize (Hone eq_refl). lia.
  - destruct (ModelMetaclass_new_errors _ _ _ _ _ Hres) as [k' ->].
    by exists k'.
Qed.

Lemma class_namespace_mem attrs mappings table pk fields modified k :
  dict_mem attrs k = true →
  dict_mem (class_namespace attrs mappings table pk fields modified) k
  = true.
Proof. intros H. unfold class_namespace. by do 5 apply dict_mem_set. Qed.

(** What a successful registration returns. *)
Lemma ModelMetaclass_new_registered name base attrs st nt :
  name ≠ "Model" →
  (ModelMetaclass_new name base attrs st).1 = Ok nt →
  ∃ acc st2,
    for_each (register_item (fresh (dom (lists st))))
      (dict_set attrs "_id" (VField id_field))
      (mkLoop (dict_set attrs "_id" (VField id_field)) [] None)
      (loop_start name attrs st) = (Ok acc, st2)
    ∧ ls_pk acc = Some "_id"
    ∧ nt = Registered
             (mkClass name base
                (class_namespace (ls_attrs acc) (ls_mappings acc)
                   (py_or (lists st)
                      (from_option id VNone (dict_get attrs "__table__"))
                      (VStr (lower name)))
                   "_id" (fresh (dom (lists st))) (fresh (dom (lists st2))))
                (ls_mappings acc)
                (py_or (lists st)
                   (from_option id VNone (dict_get attrs "__table__"))
                   (VStr (lower name)))
                "_id" (fresh (dom (lists st))) (fresh (dom (lists st2)))).
Proof.
  intros Hname. rewrite ModelMetaclass_new_unfold by done. cbn zeta.
  pose proof (register_loop_injected (fresh (dom (lists st))) attrs
                (mkLoop (dict_set attrs "_id" (VField id_field)) [] None)
                (loop_start name attrs st)) as Hloop.
  destruct (for_each _ _ _ _) as [[acc|e] st2]; simpl in *; [|done].
  destruct Hloop as [Hpk _]. rewrite Hpk. simpl. intros [= <-].
  by exists acc, st2.
Qed.

Lemma ModelMetaclass_new_wf name base attrs st c :
  (ModelMetaclass_new name base attrs st).1 = Ok (Registered c) →
  wf_class c = true.
Proof.
  destruct (decide (name = "Model")) as [->|Hname]; [done|].
  intros Hres.
  destruct (ModelMetaclass_new_registered _ _ _ _ _ Hname Hres)
    as (acc & st2 & Hloop & Hpk & [= ->]).
  unfold wf_class. simpl. apply andb_true_iff. split.
  - pose proof (register_loop_injected (fresh (dom (lists st))) attrs
                  (mkLoop (dict_set attrs "_id" (VField id_field)) [] None)
                  (loop_start name attrs st)) as H.
    rewrite Hloop in H. simpl in H. by destruct H.
  - apply forallb_forall. intros k Hk. apply class_namespace_mem.
    eapply register_loop_bound; [| by rewrite Hloop |]; [done|].
    unfold dict_mem. destruct (dict_get (ls_mappings acc) k) eqn:Hget;
      [done|].
    apply dict_get_None in Hget. by apply list_elem_of_In in Hk.
Qed.

(** C2 (amended). After the registration of a type whose name is not
    [Model] (a type of that name is taken for the root and skipped, also
    when it is a subclass), whatever its body declares, [__mappings__]
    has an entry under the attribute name [_id], the identity
    descriptor: external name [_id], type [ObjectId], primary key, with
    [required], [unique], [type_check] off and no validator. *)
Theorem C2_identity_field_registered name base attrs st nt :
  name ≠ "Model" →
  NoDup (dict_keys attrs) →
  (ModelMetaclass_new name base attrs st).1 = Ok nt →
  ∃ c f,
    nt = Registered c
    ∧ dict_get (c_mappings c) "_id" = Some f
    ∧ _IdField (lists st) = Ok f
    ∧ field_name f = "_id"
    ∧ field_type f = TObjectId
    ∧ pk f = true
    ∧ required f = false ∧ unique f = false ∧ type_check f = false
    ∧ validation f = VNone
    ∧ c_pk c = "_id".
Proof.
  intros Hname Hnd Hres.
  destruct (ModelMetaclass_new_registered _ _ _ _ _ Hname Hres)
    as (acc & st2 & Hloop & Hpk & ->).
  eexists _, id_field. split; [done|]. simpl.
  split; [|by repeat split].
  apply (dict_keys_set_nodup _ "_id" (VField id_field)) in Hnd.
  destruct (dict_set_split attrs "_id" (VField id_field))
    as (pre & post & Hsplit & _ & _).
  rewrite Hsplit in Hnd, Hloop. rewrite for_each_app in Hloop.
  destruct (for_each _ pre _ _) as [[acc1|e1] st1]; [|done].
  rewrite for_each_cons, register_item_field in Hloop. cbn zeta in Hloop.
  destruct (pk id_field && pk_truthy (ls_pk acc1)); [done|].
  unfold dict_keys in Hnd. rewrite fmap_app in Hnd.
  apply NoDup_app in Hnd as (_ & _ & Hnd). simpl in Hnd.
  apply NoDup_cons in Hnd as [Hnin _].
  match type of Hloop with
  | for_each _ post ?a ?s = _ =>
      pose proof (register_loop_mappings_other (fresh (dom (lists st)))
                    post a s acc "_id" Hnin) as Hother
  end.
  rewrite Hloop in Hother. rewrite Hother by done. simpl.
  apply dict_get_set_eq.
Qed.
End RegistrationFacts.

(** ** Document instances *)

Lemma ModelMetaclass_new_allocated name base attrs st c st' :
  ModelMetaclass_new name base attrs st = (Ok (Registered c), st') →
  is_Some (lists st' !! c_modified c).
Proof.
  destruct (decide (name = "Model")) as [->|Hname]; [done|].
  rewrite ModelMetaclass_new_unfold by done. cbn zeta.
  destruct (for_each _ _ _ _) as [[acc|e] st2]; [|done].
  destruct (ls_pk acc) as [pk|]; [|done].
  destruct (String.eqb pk ""); [done|]. intros [= <- <-].
  simpl. rewrite lookup_insert_eq. eauto.
Qed.

(** Registration allocates its two lists and writes to no list that
    exists already: the list of an earlier class is left alone. *)
Lemma register_loop_frame fields l acc st l' :
  l' ≠ fields →
  lists (for_each (register_item fields) l acc st).2 !! l'
  = lists st !! l'.
Proof.
  intros Hne. revert acc st. induction l as [|[k v] l IH]; intros acc st;
    [done|].
  rewrite for_each_cons.
  destruct v;
    try (rewrite register_item_other by done; rewrite IH; simpl;
         by rewrite lookup_insert_ne).
  rewrite register_item_field. cbn zeta.
  destruct (pk f && pk_truthy (ls_pk acc)); [done|]. by rewrite IH.
Qed.

(** The [__modified__] of a new class is none of the lists that exist
    already. *)
Lemma ModelMetaclass_new_fresh_list name base attrs st c st' l :
  is_Some (lists st !! l) →
  ModelMetaclass_new name base attrs st = (Ok (Registered c), st') →
  c_modified c ≠ l.
Proof.
  intros Hl. destruct (decide (name = "Model")) as [->|Hname]; [done|].
  assert (l ≠ fresh (dom (lists st))) as Hfields.
  { intros ->. apply elem_of_dom in Hl. by apply is_fresh in Hl. }
  rewrite ModelMetaclass_new_unfold by done. cbn zeta.
  pose proof (register_loop_frame (fresh (dom (lists st)))
                (dict_set attrs "_id" (VField id_field))
                (mkLoop (dict_set attrs "_id" (VField id_field)) [] None)
                (loop_start name attrs st) l Hfields) as Hloop.
  unfold loop_start at 2 in Hloop. simpl in Hloop.
  rewrite lookup_insert_ne in Hloop by done.
  destruct (for_each _ _ _ _) as [[acc|e] st2]; simpl in Hloop; [|done].
  destruct (ls_pk acc) as [pk|]; [|done].
  destruct (String.eqb pk ""); [done|]. intros [= <- _]. simpl.
  intros <-. rewrite <- Hloop in Hl. apply elem_of_dom in Hl.
  by apply is_fresh in Hl.
Qed.

Lemma ModelMetaclass_new_frame name base attrs st l :
  is_Some (lists st !! l) →
  lists (ModelMetaclass_new name base attrs st).2 !! l = lists st !! l.
Proof.
  intros Hl. destruct (decide (name = "Model")) as [->|Hname]; [done|].
  assert (l ≠ fresh (dom (lists st))) as Hfields.
  { intros ->. apply elem_of_dom in Hl. by apply is_fresh in Hl. }
  rewrite ModelMetaclass_new_unfold by done. cbn zeta.
  pose proof (register_loop_frame (fresh (dom (lists st)))
                (dict_set attrs "_id" (VField id_field))
                (mkLoop (dict_set attrs "_id" (VField id_field)) [] None)
                (loop_start name attrs st) l Hfields) as Hloop.
  unfold loop_start at 2 in Hloop. simpl in Hloop.
  rewrite lookup_insert_ne in Hloop by done.
  destruct (for_each _ _ _ _) as [[acc|e] st2]; simpl in Hloop; [|done].
  destruct (ls_pk acc) as [pk|]; [|done].
  destruct (String.eqb pk ""); [done|]. simpl.
  rewrite lookup_insert_ne; [done|].
  intros <-. rewrite <- Hloop in Hl. apply elem_of_dom in Hl.
  by apply is_fresh in Hl.
Qed.

(** A class starts with an empty [__modified__]. *)
Lemma ModelMetaclass_new_dirty_empty name base attrs st c st' :
  ModelMetaclass_new name base attrs st = (Ok (Registered c), st') →
  dirty_attrs st' (Model_new c) = [].
Proof.
  destruct (decide (name = "Model")) as [->|Hname]; [done|].
  rewrite ModelMetaclass_new_unfold by done. cbn zeta.
  destruct (for_each _ _ _ _) as [[acc|e] st2]; [|done].
  destruct (ls_pk acc) as [pk|]; [|done].
  destruct (String.eqb pk ""); [done|]. intros [= <- <-].
  unfold dirty_attrs. simpl. by rewrite lookup_total_insert_eq.
Qed.

Section ModelFacts.
Variable call_env : value -> list value -> list (string * value)
                    -> value + string * string.
Implicit Types (self : Instance) (st : state) (key k : string) (v : value).

Lemma dirty_attrs_append st self self' key :
  i_class self' = i_class self →
  dirty_attrs
    (mkState (<[c_modified (i_class self)
                := lists st !!! c_modified (i_class self) ++ [key]]>
                (lists st)) (log st)) self'
  = dirty_attrs st self ++ [key].
Proof.
  intros Hc. unfold dirty_attrs. rewrite Hc. simpl.
  by rewrite lookup_total_insert_eq.
Qed.

Lemma py_getattr_stored self key v :
  py_getattr (mkInstance (i_class self) (dict_set (i_dict self) key v)) key
  = Some v.
Proof. unfold py_getattr. simpl. by rewrite dict_get_set_eq. Qed.

Lemma py_getattr_other self key v k :
  key ≠ k →
  py_getattr (mkInstance (i_class self) (dict_set (i_dict self) key v)) k
  = py_getattr self k.
Proof.
  intros Hne. unfold py_getattr. simpl. by rewrite dict_get_set_ne.
Qed.

(** [__setattr__] by cases. *)
Lemma Model_setattr_mapped self key v st (f : MongoField) :
  dict_get (c_mappings (i_class self)) key = Some f →
  Model_setattr call_env self key v st
  = match MongoField_validate call_env (lists st) f v [] with
    | Ok _ =>
        (Ok (mkInstance (i_class self) (dict_set (i_dict self) key v)),
         mkState (<[c_modified (i_class self)
                    := lists st !!! c_modified (i_class self) ++ [key]]>
                    (lists st)) (log st))
    | Err e => (Err e, st)
    end.
Proof.
  intros Hf. unfold Model_setattr. rewrite Hf.
  unfold bind, get_heap, lift, list_append, ret.
  by destruct (MongoField_validate call_env (lists st) f v []).
Qed.

Lemma Model_setattr_unmapped self key v st :
  dict_get (c_mappings (i_class self)) key = None →
  Model_setattr call_env self key v st
  = (Ok (mkInstance (i_class self) (dict_set (i_dict self) key v)), st).
Proof. intros Hf. unfold Model_setattr. by rewrite Hf. Qed.

(** C3. A write to a mapped attribute runs the descriptor's [validate]
    on the value first. If it raises, the write raises the same
    exception and the state (hence [__modified__]) and the instance are
    as before. If it passes, the attribute name is appended once to
    [__modified__] and the value is stored on the instance, every other
    attribute being as before. A write to an unmapped attribute stores
    the value and changes nothing else, whatever the value. *)
Theorem C3_setattr_validates_and_tracks self key v st :
  match dict_get (c_mappings (i_class self)) key with
  | Some f =>
      match MongoField_validate call_env (lists st) f v [] with
      | Err e => Model_setattr call_env self key v st = (Err e, st)
      | Ok _ =>
          ∃ self' st',
            Model_setattr call_env self key v st = (Ok self', st')
            ∧ dirty_attrs st' self' = dirty_attrs st self ++ [key]
            ∧ py_getattr self' key = Some v
            ∧ (∀ k, k ≠ key → py_getattr self' k = py_getattr self k)
            ∧ i_class self' = i_class self
            ∧ log st' = log st
      end
  | None =>
      ∃ self',
        Model_setattr call_env self key v st = (Ok self', st)
        ∧ py_getattr self' key = Some v
        ∧ (∀ k, k ≠ key → py_getattr self' k = py_getattr self k)
        ∧ i_class self' = i_class self
  end.
Proof.
  destruct (dict_get (c_mappings (i_class self)) key) as [f|] eqn:Hf.
  - rewrite (Model_setattr_mapped _ _ _ _ f) by done.
    destruct (MongoField_validate call_env (lists st) f v []); [|done].
    eexists _, _. split; [done|]. split; [by apply dirty_attrs_append|].
    split; [apply py_getattr_stored|]. split; [|done].
    intros k Hk. by apply py_getattr_other.
  - rewrite Model_setattr_unmapped by done. eexists. split; [done|].
    split; [apply py_getattr_stored|]. split; [|done].
    intros k Hk. by apply py_getattr_other.
Qed.

(** [validate_fields] is the first failing check, and touches the
    state only to log that all checks passed. *)
Lemma validate_fields_loop self m st :
  for_each (λ _ '(name, field),
              let! h := get_heap in
              lift (MongoField_validate call_env h field
                      (getattr_default self name VNone) []))
    m tt st
  = match first_failure call_env (lists st) self m with
    | Ok _ => (Ok tt, st)
    | Err e => (Err e, st)
    end.
Proof.
  induction m as [|[name field] m IH]; [done|].
  rewrite for_each_cons. simpl. unfold bind, get_heap, lift, field_check.
  simpl.
  destruct (MongoField_validate call_env (lists st) field
              (getattr_default self name VNone) []) as [[]|e]; [|done].
  apply IH.
Qed.

Lemma validate_fields_eq self st :
  validate_fields call_env self st
  = match first_failure call_env (lists st) self
            (c_mappings (i_class self)) with
    | Ok _ => (Ok tt, mkState (lists st) (log st ++ [LogValidatePassed]))
    | Err e => (Err e, st)
    end.
Proof.
  unfold validate_fields. rewrite bind_eq, validate_fields_loop.
  by destruct (first_failure _ _ _ _).
Qed.

Lemma first_failure_ok h self m :
  first_failure call_env h self m = Ok tt
  ↔ Forall (λ nf, field_check call_env h self nf = Ok tt) m.
Proof.
  induction m as [|nf m IH]; simpl.
  - split; [by constructor | done].
  - rewrite Forall_cons.
    destruct (field_check call_env h self nf) as [[]|e].
    + rewrite IH. by split; [|intros [_ ?]].
    + by split; [|intros [? _]].
Qed.

Lemma first_failure_err h self m e :
  first_failure call_env h self m = Err e
  ↔ ∃ pre nf post,
      m = pre ++ nf :: post
      ∧ Forall (λ x, field_check call_env h self x = Ok tt) pre
      ∧ field_check call_env h self nf = Err e.
Proof.
  induction m as [|nf m IH]; simpl.
  - split; [done|]. intros (pre & ? & ? & H & _). by destruct pre.
  - destruct (field_check call_env h self nf) as [[]|e'] eqn:Hnf.
    + rewrite IH. split.
      * intros (pre & x & post & -> & Hpre & Hx).
        exists (nf :: pre), x, post. split; [done|].
        split; [by constructor | done].
      * intros (pre & x & post & Hm & Hpre & Hx).
        destruct pre as [|y pre]; simpl in Hm.
        { injection Hm as -> ->. congruence. }
        injection Hm as -> ->. apply Forall_cons in Hpre as [_ Hpre].
        by exists pre, x, post.
    + split.
      * intros [= ->]. exists [], nf, m. split; [done|].
        split; [by constructor | done].
      * intros (pre & x & post & Hm & Hpre & Hx).
        destruct pre as [|y pre]; simpl in Hm.
        { injection Hm as -> ->. congruence. }
        injection Hm as -> ->. apply Forall_cons in Hpre as [Hy _].
        congruence.
Qed.

Lemma save_validation_failure self st e :
  (validate_fields call_env self st).1 = Err e →
  save call_env self st = (Err e, st).
Proof.
  unfold save. rewrite bind_eq, validate_fields_eq.
  destruct (first_failure _ _ _ _); simpl; [done|]. by intros [= ->].
Qed.

(** C6. [validate_fields] checks the mapped fields in order, each
    against the instance's current value ([None] when the attribute is
    absent), and raises the exception of the first check that fails;
    it passes exactly when every check passes. When it fails, [save]
    raises the same exception and leaves the state as it was: nothing
    is logged, [__modified__] and every stored value are unchanged. *)
Theorem C6_save_aborts_on_validation_failure self st :
  (∀ e, (validate_fields call_env self st).1 = Err e
        ↔ ∃ pre nf post,
            c_mappings (i_class self) = pre ++ nf :: post
            ∧ Forall (λ x, field_check call_env (lists st) self x = Ok tt)
                pre
            ∧ field_check call_env (lists st) self nf = Err e)
  ∧ ((validate_fields call_env self st).1 = Ok tt
     ↔ Forall (λ nf, field_check call_env (lists st) self nf = Ok tt)
         (c_mappings (i_class self)))
  ∧ (∀ e, (validate_fields call_env self st).1 = Err e →
          validate_fields call_env self st = (Err e, st)
          ∧ save call_env self st = (Err e, st)
          ∧ dirty_attrs (save call_env self st).2 self
            = dirty_attrs st self).
Proof.
  split; [|split].
  - intros e. rewrite <- first_failure_err, validate_fields_eq.
    by destruct (first_failure _ _ _ _) as [[]|].
  - rewrite <- first_failure_ok, validate_fields_eq.
    by destruct (first_failure _ _ _ _) as [[]|].
  - intros e He. rewrite (save_validation_failure _ _ _ He).
    split; [|done]. rewrite validate_fields_eq in He |- *.
    destruct (first_failure _ _ _ _); simpl in *; congruence.
Qed.

(** A name bound in the class namespace is found by attribute lookup;
    so is every mapped name of a registered class. *)
Lemma py_getattr_class self k :
  dict_mem (c_dict (i_class self)) k = true → is_Some (py_getattr self k).
Proof.
  unfold py_getattr, dict_mem. simpl.
  destruct (dict_get (i_dict self) k); [eauto|].
  destruct (dict_get (c_dict (i_class self)) k); [|done]. simpl. eauto.
Qed.

Lemma py_getattr_mapped self k :
  wf_class (i_class self) = true →
  dict_mem (c_mappings (i_class self)) k = true →
  is_Some (py_getattr self k).
Proof.
  unfold wf_class. intros [_ Hall]%andb_true_iff Hk.
  apply py_getattr_class. rewrite forallb_forall in Hall. apply Hall.
  apply list_elem_of_In. by apply dict_mem_elem.
Qed.

(** The dict comprehension of [save]. *)
Lemma set_query_ok self keys acc :
  (∀ k, k ∈ keys → is_Some (py_getattr self k)) →
  ∃ q, set_query self keys acc = Ok q
       ∧ ∀ k, dict_get q k
              = if bool_decide (k ∈ keys) then py_getattr self k
                else dict_get acc k.
Proof.
  revert acc. induction keys as [|k0 keys IH]; intros acc Hall; simpl.
  { by exists acc. }
  destruct (Hall k0) as [v0 Hv0]; [by left|].
  unfold getattr. rewrite Hv0.
  destruct (IH (dict_set acc k0 v0)) as (q & Hq & Hget).
  { intros k Hk. apply Hall. by right. }
  exists q. split; [done|]. intros k. rewrite Hget.
  destruct (decide (k ∈ keys)) as [Hin|Hnin].
  - rewrite !bool_decide_eq_true_2; [done | by right | done].
  - rewrite (bool_decide_eq_false_2 _ Hnin).
    destruct (decide (k0 = k)) as [->|Hne].
    + rewrite dict_get_set_eq, bool_decide_eq_true_2; [done | by left].
    + rewrite dict_get_set_ne by done.
      rewrite bool_decide_eq_false_2; [done|].
      intros [?|?]%elem_of_cons; [congruence | done].
Qed.

(** The dict comprehension of [__str__]. *)
Lemma diction_get self keys acc k :
  dict_get (fold_left (λ d k, dict_set d k (getattr_default self k VNone))
              keys acc) k
  = if bool_decide (k ∈ keys) then Some (getattr_default self k VNone)
    else dict_get acc k.
Proof.
  revert acc. induction keys as [|k0 keys IH]; intros acc; simpl; [done|].
  rewrite IH. destruct (decide (k ∈ keys)) as [Hin|Hnin].
  - rewrite !bool_decide_eq_true_2; [done | by right | done].
  - rewrite (bool_decide_eq_false_2 _ Hnin).
    destruct (decide (k0 = k)) as [->|Hne].
    + rewrite dict_get_set_eq, bool_decide_eq_true_2; [done | by left].
    + rewrite dict_get_set_ne by done.
      rewrite bool_decide_eq_false_2; [done|].
      intros [?|?]%elem_of_cons; [congruence | done].
Qed.

Lemma diction_nodup self keys acc :
  NoDup (dict_keys acc) →
  NoDup (dict_keys
           (fold_left (λ d k, dict_set d k (getattr_default self k VNone))
              keys acc)).
Proof.
  revert acc. induction keys as [|k0 keys IH]; intros acc Hnd; simpl;
    [done|]. by apply IH, dict_keys_set_nodup.
Qed.

(** [__str__] of an instance of a registered class without identity
    value: the mapped attributes but [_id], with their current values. *)
Lemma Model_str_no_id self st :
  wf_class (i_class self) = true →
  truthy (lists st) (getattr_default self "_id" VNone) = false →
  ∃ doc,
    Model_str self st = (Ok doc, st)
    ∧ ∀ k, dict_get doc k
           = if dict_mem (c_mappings (i_class self)) k
                && negb (String.eqb k "_id")
             then Some (getattr_default self k VNone)
             else None.
Proof.
  intros [Hid _]%andb_true_iff Hfalsy. unfold Model_str.
  apply dict_mem_elem in Hid.
  rewrite diction_get, bool_decide_eq_true_2 by done.
  unfold bind, get_heap. simpl. rewrite Hfalsy. simpl.
  eexists. split; [done|]. intros k.
  rewrite dict_get_pop by (apply diction_nodup; constructor).
  rewrite diction_get. rewrite (String.eqb_sym k "_id").
  destruct (String.eqb "_id" k); simpl; [by rewrite andb_false_r|].
  rewrite andb_true_r. simpl.
  destruct (dict_mem (c_mappings (i_class self)) k) eqn:Hk.
  - rewrite bool_decide_eq_true_2; [done | by apply dict_mem_elem].
  - rewrite bool_decide_eq_false_2; [done|].
    intros H%dict_mem_elem. congruence.
Qed.

Lemma getattr_truthy h self k :
  truthy h (getattr_default self k VNone) = true →
  getattr self k = Ok (getattr_default self k VNone).
Proof.
  unfold getattr, getattr_default. by destruct (py_getattr self k).
Qed.

(** [save] on an instance of a class in which [_id] is mapped and every
    mapped name bound, with a [__modified__] holding mapped names. *)
Lemma save_insert_or_update self st :
  (validate_fields call_env self st).1 = Ok tt →
  wf_class (i_class self) = true →
  dirty_mapped st self = true →
  ∃ st' ev,
    save call_env self st = (Ok tt, st')
    ∧ dirty_attrs st' self = []
    ∧ log st' = log st ++ [LogValidatePassed; ev]
    ∧ if truthy (lists st) (getattr_default self "_id" VNone)
      then ∃ query,
             ev = LogUpdate (getattr_default self "_id" VNone) query
             ∧ (∀ k, k ∈ dirty_attrs st self →
                     ∃ v, py_getattr self k = Some v
                          ∧ dict_get query k = Some v)
             ∧ (∀ k, k ∉ dirty_attrs st self → dict_get query k = None)
      else ∃ doc,
             ev = LogInsert (c_table (i_class self)) doc
             ∧ ∀ k, dict_get doc k
                    = if dict_mem (c_mappings (i_class self)) k
                         && negb (String.eqb k "_id")
                      then Some (getattr_default self k VNone)
                      else None.
Proof.
  intros Hval Hwf Hdirty. unfold save.
  rewrite bind_eq, validate_fields_eq. rewrite validate_fields_eq in Hval.
  destruct (first_failure _ _ _ _) as [[]|]; [|done]. clear Hval.
  rewrite bind_eq. unfold get_heap at 1. cbn [lists log].
  destruct (truthy (lists st) (getattr_default self "_id" VNone)) eqn:Hid.
  - assert (∀ k, k ∈ dirty_attrs st self → is_Some (py_getattr self k))
      as Hfound.
    { intros k Hk. apply py_getattr_mapped; [done|].
      unfold dirty_mapped in Hdirty. rewrite forallb_forall in Hdirty.
      apply Hdirty. by apply list_elem_of_In. }
    destruct (set_query_ok self (dirty_attrs st self) [] Hfound)
      as (q & Hq & Hget).
    unfold dirty_attrs in Hq. rewrite bind_eq. unfold lift at 1. rewrite Hq.
    rewrite bind_eq. unfold lift at 1.
    rewrite (getattr_truthy _ _ _ Hid).
    unfold bind, logging_debug, list_clear. simpl.
    eexists _, _. split; [done|]. split.
    { unfold dirty_attrs. simpl. by rewrite lookup_total_insert_eq. }
    split; [by rewrite <- app_assoc|].
    eexists. split; [done|]. split.
    + intros k Hk. destruct (Hfound k Hk) as [v Hv]. exists v.
      split; [done|]. rewrite Hget, bool_decide_eq_true_2; done.
    + intros k Hk. rewrite Hget, bool_decide_eq_false_2; done.
  - destruct (Model_str_no_id self
                (mkState (lists st) (log st ++ [LogValidatePassed])) Hwf Hid)
      as (doc & Hdoc & Hget).
    rewrite bind_eq, Hdoc.
    unfold bind, logging_debug, list_clear. simpl.
    eexists _, _. split; [done|]. split.
    { unfold dirty_attrs. simpl. by rewrite lookup_total_insert_eq. }
    split; [by rewrite <- app_assoc|].
    by exists doc.
Qed.

(** [get_value_or_default] when it does not take the branch of
    base.py 150-152. *)
Lemma get_value_or_default_skip self key (field : MongoField) st :
  dict_get (c_mappings (i_class self)) key = Some field →
  truthy (lists st) (default field) = true
  ∨ is_none (getattr_default self key VNone) = false →
  get_value_or_default call_env self key st
  = (Ok (getattr_default self key VNone, self), st).
Proof.
  intros Hf Hskip. unfold get_value_or_default.
  destruct (is_none (getattr_default self key VNone)); [|done].
  rewrite Hf, bind_eq. unfold get_heap at 1.
  destruct Hskip as [->|?]; done.
Qed.

(** C8. For a mapped attribute, the branch that resolves the default
    (the call of a callable default, the log message, the write back)
    runs only when the descriptor's [default] is false: with a true
    [default], and also whenever the current value is not [None] (be it
    a false value such as [0], [False] or the empty string), the call
    returns the current value and changes nothing. When the current
    value is [None] and the [default] is false, the branch runs: the
    default is called if callable, logged and written through
    [__setattr__]. *)
Theorem C8_default_resolved_only_for_falsy_default self key
    (field : MongoField) st :
  dict_get (c_mappings (i_class self)) key = Some field →
  (truthy (lists st) (default field) = true
   ∨ is_none (getattr_default self key VNone) = false →
     get_value_or_default call_env self key st
     = (Ok (getattr_default self key VNone, self), st))
  ∧ (truthy (lists st) (default field) = false →
     is_none (getattr_default self key VNone) = true →
     get_value_or_default call_env self key st
     = match (if callable (default field)
              then py_call call_env (default field) [] []
              else Ok (default field)) with
       | Ok v' =>
           match Model_setattr call_env self key v'
                   (mkState (lists st)
                      (log st ++ [LogUsingDefault key v'])) with
           | (Ok self', st') => (Ok (v', self'), st')
           | (Err e, st') => (Err e, st')
           end
       | Err e => (Err e, st)
       end).
Proof.
  intros Hf. split; [by apply get_value_or_default_skip|].
  intros Hfalsy Hnone. unfold get_value_or_default.
  rewrite Hnone, Hf, bind_eq. unfold get_heap at 1. rewrite Hfalsy. simpl.
  rewrite bind_eq.
  destruct (callable (default field)).
  - unfold lift at 1. destruct (py_call call_env (default field) [] []);
      [|done].
    rewrite bind_eq. unfold logging_debug at 1. rewrite bind_eq.
    by destruct (Model_setattr _ _ _ _ _) as [[?|?] ?].
  - unfold ret at 1. rewrite bind_eq. unfold logging_debug at 1.
    rewrite bind_eq.
    by destruct (Model_setattr _ _ _ _ _) as [[?|?] ?].
Qed.

(** The names in [__modified__] stay mapped names, whether the
    operations return or raise. *)
Lemma dirty_mapped_lists st st' self self' :
  lists st' = lists st → i_class self' = i_class self →
  dirty_mapped st' self' = dirty_mapped st self.
Proof.
  intros Hl Hc. unfold dirty_mapped, dirty_attrs. by rewrite Hl, Hc.
Qed.

Lemma Model_setattr_dirty_mapped self key v st r st' :
  dirty_mapped st self = true →
  Model_setattr call_env self key v st = (r, st') →
  dirty_mapped st' (instance_after self r id) = true
  ∧ i_class (instance_after self r id) = i_class self.
Proof.
  intros Hd. destruct (dict_get (c_mappings (i_class self)) key) as [f|]
    eqn:Hf.
  - rewrite (Model_setattr_mapped _ _ _ _ f) by done.
    destruct (MongoField_validate _ _ _ _ _); intros [= <- <-];
      [|by split].
    split; [|done]. unfold dirty_mapped.
    rewrite (dirty_attrs_append st self) by done.
    rewrite forallb_app. simpl. unfold dirty_mapped in Hd. rewrite Hd.
    unfold dict_mem. by rewrite Hf.
  - rewrite Model_setattr_unmapped by done. by intros [= <- <-].
Qed.

Lemma get_value_or_default_dirty_mapped self key st r st' :
  dirty_mapped st self = true →
  get_value_or_default call_env self key st = (r, st') →
  dirty_mapped st' (instance_after self r snd) = true
  ∧ i_class (instance_after self r snd) = i_class self.
Proof.
  intros Hd. unfold get_value_or_default.
  destruct (is_none (getattr_default self key VNone));
    [|by intros [= <- <-]].
  destruct (dict_get (c_mappings (i_class self)) key) as [field|];
    [|by intros [= <- <-]].
  rewrite bind_eq. unfold get_heap at 1.
  destruct (truthy (lists st) (default field)); simpl;
    [by intros [= <- <-]|].
  rewrite bind_eq.
  destruct ((if callable (default field)
             then lift (py_call call_env (default field) [] [])
             else ret (default field)) st) as [[v'|e] st1] eqn:Hres.
  - resolved_state Hres.
    rewrite bind_eq. unfold logging_debug at 1. rewrite bind_eq.
    destruct (Model_setattr _ _ _ _ _) as [r1 st2] eqn:Hset.
    eapply Model_setattr_dirty_mapped in Hset; [|exact Hd].
    destruct r1 as [self1|e]; intros [= <- <-]; exact Hset.
  - resolved_state Hres.
    by intros [= <- <-].
Qed.

(** [save] returns only after emptying [__modified__]. *)
Lemma save_clears self st st' :
  save call_env self st = (Ok tt, st') → dirty_attrs st' self = [].
Proof.
  unfold save. rewrite bind_eq.
  destruct (validate_fields call_env self st) as [[[]|e] st1]; [|done].
  rewrite bind_eq. unfold get_heap at 1.
  destruct (truthy _ _).
  - rewrite bind_eq. unfold lift at 1.
    destruct (set_query _ _ _); [|done].
    rewrite bind_eq. unfold lift at 1. destruct (getattr self "_id"); [|done].
    unfold bind, logging_debug, list_clear. simpl. intros [= <-].
    unfold dirty_attrs. simpl. by rewrite lookup_total_insert_eq.
  - rewrite bind_eq. destruct (Model_str self st1) as [[doc|e] st2]; [|done].
    unfold bind, logging_debug, list_clear. simpl. intros [= <-].
    unfold dirty_attrs. simpl. by rewrite lookup_total_insert_eq.
Qed.


Lemma Model_str_state self st r st' :
  Model_str self st = (r, st') → st' = st.
Proof.
  unfold Model_str. destruct (dict_get _ "_id"); [|by intros [= _ <-]].
  unfold bind, get_heap. simpl. destruct (negb _); by intros [= _ <-].
Qed.

Lemma save_dirty_mapped self st r st' :
  dirty_mapped st self = true →
  save call_env self st = (r, st') →
  dirty_mapped st' self = true.
Proof.
  intros Hd Hsave. destruct r as [[]|e].
  { unfold dirty_mapped. by rewrite (save_clears _ _ _ Hsave). }
  rewrite <- Hd. apply dirty_mapped_lists; [|done].
  revert Hsave. unfold save. rewrite bind_eq, validate_fields_eq.
  destruct (first_failure _ _ _ _); [|by intros [= _ <-]].
  rewrite bind_eq. unfold get_heap at 1. cbn [lists log].
  destruct (truthy _ _).
  - rewrite bind_eq. unfold lift at 1.
    destruct (set_query _ _ _); [|by intros [= _ <-]].
    rewrite bind_eq. unfold lift at 1.
    destruct (getattr self "_id"); [|by intros [= _ <-]].
    unfold bind, logging_debug, list_clear. simpl. done.
  - rewrite bind_eq.
    destruct (Model_str self _) as [[doc|e'] st2] eqn:Hstr.
    + unfold bind, logging_debug, list_clear. simpl. done.
    + apply Model_str_state in Hstr. subst st2. by intros [= _ <-].
Qed.

(** The list objects an operation writes to. *)
Lemma list_step_other l st st' l' :
  list_step l st st' → l' ≠ l → lists st' !! l' = lists st !! l'.
Proof.
  intros [->|[x ->]] Hne; [done|]. by rewrite lookup_insert_ne.
Qed.

Lemma list_step_allocated l st st' :
  list_step l st st' → is_Some (lists st !! l) → is_Some (lists st' !! l).
Proof.
  intros [->|[x ->]] H; [done|]. rewrite lookup_insert_eq. eauto.
Qed.

Lemma Model_setattr_step self key v st r st' :
  Model_setattr call_env self key v st = (r, st') →
  list_step (c_modified (i_class self)) st st'.
Proof.
  destruct (dict_get (c_mappings (i_class self)) key) as [f|] eqn:Hf.
  - rewrite (Model_setattr_mapped _ _ _ _ f) by done.
    destruct (MongoField_validate _ _ _ _ _); intros [= _ <-];
      [right; eauto | by left].
  - rewrite Model_setattr_unmapped by done. intros [= _ <-]. by left.
Qed.

Lemma get_value_or_default_step self key st r st' :
  get_value_or_default call_env self key st = (r, st') →
  list_step (c_modified (i_class self)) st st'.
Proof.
  unfold get_value_or_default.
  destruct (is_none _); [|intros [= _ <-]; by left].
  destruct (dict_get _ key) as [field|]; [|intros [= _ <-]; by left].
  rewrite bind_eq. unfold get_heap at 1.
  destruct (truthy _ _); simpl; [intros [= _ <-]; by left|].
  rewrite bind_eq.
  destruct ((if callable (default field)
             then lift (py_call call_env (default field) [] [])
             else ret (default field)) st) as [[v'|e] st1] eqn:Hres.
  - resolved_state Hres.
    rewrite bind_eq. unfold logging_debug at 1. rewrite bind_eq.
    destruct (Model_setattr _ _ _ _ _) as [r1 st2] eqn:Hset.
    apply Model_setattr_step in Hset.
    destruct r1; intros [= _ <-]; exact Hset.
  - resolved_state Hres.
    intros [= _ <-]. by left.
Qed.

Lemma save_step self st r st' :
  save call_env self st = (r, st') →
  list_step (c_modified (i_class self)) st st'.
Proof.
  unfold save. rewrite bind_eq, validate_fields_eq.
  destruct (first_failure _ _ _ _); [|intros [= _ <-]; by left].
  rewrite bind_eq. unfold get_heap at 1. cbn [lists log].
  destruct (truthy _ _).
  - rewrite bind_eq. unfold lift at 1.
    destruct (set_query _ _ _); [|intros [= _ <-]; by left].
    rewrite bind_eq. unfold lift at 1.
    destruct (getattr self "_id"); [|intros [= _ <-]; by left].
    unfold bind, logging_debug, list_clear. simpl. intros [= _ <-].
    right. simpl. eauto.
  - rewrite bind_eq.
    destruct (Model_str self _) as [[doc|e'] st2] eqn:Hstr;
      apply Model_str_state in Hstr; subst st2.
    + unfold bind, logging_debug, list_clear. simpl. intros [= _ <-].
      right. simpl. eauto.
    + intros [= _ <-]. by left.
Qed.

(** What holds of every document instance. *)
Lemma document_invariant self st :
  document call_env self st →
  wf_class (i_class self) = true
  ∧ dirty_mapped st self = true
  ∧ is_Some (lists st !! c_modified (i_class self)).
Proof.
  induction 1 as [name base attrs st c st' Hreg
                 | self st _ (Hwf & Hd & Ha)
                 | self st key v r st' _ (Hwf & Hd & Ha) Hop
                 | self st key r st' _ (Hwf & Hd & Ha) Hop
                 | self st r st' _ (Hwf & Hd & Ha) Hop
                 | self st st' _ (Hwf & Hd & Ha) Hframe].
  - split; [eapply ModelMetaclass_new_wf; by rewrite Hreg|].
    split.
    + unfold dirty_mapped.
      by rewrite (ModelMetaclass_new_dirty_empty _ _ _ _ _ _ Hreg).
    + by apply (ModelMetaclass_new_allocated _ _ _ _ _ _ Hreg).
  - done.
  - destruct (Model_setattr_dirty_mapped _ _ _ _ _ _ Hd Hop) as [? Hc].
    rewrite Hc. split; [done|]. split; [done|].
    eapply list_step_allocated; [by eapply Model_setattr_step | done].
  - destruct (get_value_or_default_dirty_mapped _ _ _ _ _ Hd Hop) as [? Hc].
    rewrite Hc. split; [done|]. split; [done|].
    eapply list_step_allocated; [by eapply get_value_or_default_step | done].
  - split; [done|]. split; [by eapply save_dirty_mapped|].
    eapply list_step_allocated; [by eapply save_step | done].
  - split; [done|]. split; [|by rewrite Hframe].
    rewrite <- Hd. unfold dirty_mapped, dirty_attrs.
    by rewrite !lookup_total_alt, Hframe.
Qed.

(** Operations on an instance of one class leave the list of a class
    with another list object as it was. *)
Lemma other_class_unaffected self other st st' :
  list_step (c_modified (i_class self)) st st' →
  c_modified (i_class other) ≠ c_modified (i_class self) →
  dirty_attrs st' other = dirty_attrs st other.
Proof.
  intros Hstep Hne. unfold dirty_attrs.
  by rewrite !lookup_total_alt, (list_step_other _ _ _ _ Hstep Hne).
Qed.

(** C5 (amended). When [validate_fields] passes on a document
    instance, [save] returns normally with [__modified__] emptied,
    having logged one record after the validation message. The branch
    is chosen by the truth of [_id]. With a false [_id] ([None] or
    absent, but also [0] or the empty string) it is the insert record:
    the table and the mapped attributes other than [_id] with their
    current values. With a true [_id] it is the update record: the
    identity and a [$set] payload whose keys are exactly the names in
    [__modified__] at the call, each with the instance's current value.
    Nothing in [save] reads an acknowledgement: the list is emptied in
    both branches. *)
Theorem C5_save_insert_or_update self st :
  document call_env self st →
  (validate_fields call_env self st).1 = Ok tt →
  ∃ st' ev,
    save call_env self st = (Ok tt, st')
    ∧ dirty_attrs st' self = []
    ∧ log st' = log st ++ [LogValidatePassed; ev]
    ∧ if truthy (lists st) (getattr_default self "_id" VNone)
      then ∃ query,
             ev = LogUpdate (getattr_default self "_id" VNone) query
             ∧ (∀ k, k ∈ dirty_attrs st self →
                     ∃ v, py_getattr self k = Some v
                          ∧ dict_get query k = Some v)
             ∧ (∀ k, k ∉ dirty_attrs st self → dict_get query k = None)
      else ∃ doc,
             ev = LogInsert (c_table (i_class self)) doc
             ∧ ∀ k, dict_get doc k
                    = if dict_mem (c_mappings (i_class self)) k
                         && negb (String.eqb k "_id")
                      then Some (getattr_default self k VNone)
                      else None.
Proof.
  intros Hdoc Hval. destruct (document_invariant _ _ Hdoc) as (Hwf & Hd & _).
  by apply save_insert_or_update.
Qed.
End ModelFacts.

(** ** The example classes *)

Example StringField_name :
  StringField ∅ (VStr "user_name") VNone (VBool false) (VBool false)
    (VBool true) VNone = Ok name_field.
Proof. reflexivity. Qed.

Example CommonField_test :
  CommonField ∅ (VStr "test") (VInt (-9999)) (VBool false) (VBool false) VNone
  = Ok test_field.
Proof. reflexivity. Qed.

Example User_registered :
  (ModelMetaclass_new "User" [model_ns] user_body st0).1
  = Ok (Registered User).
Proof. vm_compute. reflexivity. Qed.

Example Event_registered :
  (ModelMetaclass_new "Event" [model_ns] event_body st0).1
  = Ok (Registered Event).
Proof. vm_compute. reflexivity. Qed.

(** The scenario of the specification: a non-string is rejected, a
    string is recorded, and [save] without identity takes the insert
    path and empties the list. *)
Example helloworld_scenario :
  (Model_setattr env0 (Model_new User) "name" (VInt 3) st_user).1
  = Err (TypeError_not_instance (VInt 3) TStr)
  ∧ ∃ u st2 st3,
      Model_setattr env0 (Model_new User) "name" (VStr "jett") st_user
      = (Ok u, st2)
      ∧ dirty_attrs st2 u = ["name"]
      ∧ save env0 u st2 = (Ok tt, st3)
      ∧ dirty_attrs st3 u = []
      ∧ last (log st3)
        = Some (LogInsert (VStr "user")
                  [("name", VStr "jett"); ("test_field", VInt (-9999))]).
Proof.
  split; [by vm_compute|]. eexists _, _, _.
  split; [by vm_compute|]. split; [by vm_compute|].
  split; [by vm_compute|]. split; by vm_compute.
Qed.

(** The exceptions of the module are [TypeError]s and [RuntimeError]s. *)
Example exception_classes v t k :
  exn_class (TypeError_not_instance v t) = "TypeError"
  ∧ exn_class (RuntimeError_duplicate_pk k) = "RuntimeError"
  ∧ exn_class RuntimeError_pk_not_found = "RuntimeError".
Proof. by repeat split. Qed.

(** ** Registration *)

(** C1, as stated, fails: the body of [Account] declares a primary-key
    descriptor (under [_id]), yet registration succeeds, the identity
    descriptor having replaced it. *)
Lemma C1_explicit_pk_under_id_registers :
  (∃ k (f : MongoField),
      (k, VField f) ∈ account_body ∧ pk f = true)
  ∧ is_ok (ModelMetaclass_new "Account" [model_ns] account_body st0).1 = true
  ∧ ¬ ∃ k, (ModelMetaclass_new "Account" [model_ns] account_body st0).1
           = Err (RuntimeError_duplicate_pk k).
Proof.
  split.
  { exists "_id", uid_field. split; [|reflexivity].
    unfold account_body. do 2 right. left. }
  split; [by vm_compute|].
  intros [k Hk]. vm_compute in Hk. discriminate Hk.
Qed.

(** C1 on the class body of [User]. *)
Lemma C1_registration_single_pk_witness :
  "User" ≠ "Model"
  ∧ (∀ f : MongoField, ("", VField f) ∈ user_body → pk f = false)
  ∧ ((is_ok (ModelMetaclass_new "User" [model_ns] user_body st0).1 = true
      ↔ primary_key_count (dict_set user_body "_id" (VField id_field))
        = 1%nat)
     ∧ (∀ k (f : MongoField),
          (k, VField f) ∈ user_body → pk f = true → k ≠ "_id" →
          ∃ k', (ModelMetaclass_new "User" [model_ns] user_body st0).1
                = Err (RuntimeError_duplicate_pk k'))).
Proof.
  assert (∀ f : MongoField, ("", VField f) ∈ user_body → pk f = false)
    as Hempty.
  { intros f Hin. apply dict_keys_elem, dict_mem_elem in Hin.
    vm_compute in Hin. discriminate Hin. }
  split; [discriminate|]. split; [exact Hempty|].
  apply C1_registration_single_pk; [discriminate | exact Hempty].
Defined.

(** The case C1 leaves out: a primary-key descriptor bound to the empty
    name before [_id] is not seen by the test at base.py 115, and the
    class registers with two primary-key descriptors in [__mappings__]. *)
Example empty_name_pk_not_detected :
  ∃ c,
    (ModelMetaclass_new "Odd" [model_ns] [("", VField uid_field)] st0).1
    = Ok (Registered c)
    ∧ c_mappings c = [("", uid_field); ("_id", id_field)]
    ∧ c_pk c = "_id".
Proof. eexists. split; [by vm_compute|]. split; by vm_compute. Qed.

(** C2, as stated, fails: a subclass of [Model] that is itself named
    [Model] is not the root, yet it is skipped like the root (base.py
    101): the class is built from the body as it is, with no [_id] and
    no [__mappings__] of its own. *)
Lemma C2_subclass_named_Model_skipped :
  ModelMetaclass_new "Model" [model_ns] user_body st0
  = (Ok (RootType "Model" [model_ns] user_body), st0)
  ∧ dict_get user_body "_id" = None
  ∧ dict_get user_body "__mappings__" = None
  ∧ ¬ ∃ c, (ModelMetaclass_new "Model" [model_ns] user_body st0).1
           = Ok (Registered c).
Proof.
  split; [reflexivity|]. split; [reflexivity|]. split; [reflexivity|].
  intros [c Hc]. discriminate Hc.
Qed.

(** C2 on the registration of [User]. *)
Lemma C2_identity_field_registered_witness :
  "User" ≠ "Model"
  ∧ NoDup (dict_keys user_body)
  ∧ (ModelMetaclass_new "User" [model_ns] user_body st0).1
    = Ok (Registered User)
  ∧ ∃ c (f : MongoField),
      Registered User = Registered c
      ∧ dict_get (c_mappings c) "_id" = Some f
      ∧ _IdField (lists st0) = Ok f
      ∧ field_name f = "_id"
      ∧ field_type f = TObjectId
      ∧ pk f = true
      ∧ required f = false ∧ unique f = false ∧ type_check f = false
      ∧ validation f = VNone
      ∧ c_pk c = "_id".
Proof.
  assert (NoDup (dict_keys user_body)) as Hnd.
  { apply (bool_decide_unpack _). vm_compute. exact I. }
  split; [discriminate|]. split; [exact Hnd|].
  split; [vm_compute; reflexivity|].
  apply (C2_identity_field_registered "User" [model_ns] user_body st0);
    [discriminate | exact Hnd | vm_compute; reflexivity].
Defined.

(** ** Field validation *)


(** ** Document instances *)

(** [user_jett] is a document instance in [st_jett]. *)
Lemma user_jett_document : document env0 user_jett st_jett.
Proof.
  apply (doc_setattr env0 (Model_new User) st_user "name" (VStr "jett")
           (Ok user_jett) st_jett).
  - apply (doc_class env0 "User" [model_ns] user_body st0 User st_user).
    vm_compute. reflexivity.
  - vm_compute. reflexivity.
Defined.

(** C4 fails on the code: [__modified__] is one list per class
    (base.py 131), so a write through one instance of [User] shows in the
    list of every other instance, and in that of an instance constructed
    afterwards. *)
Theorem C4_dirty_attrs_shared_by_instances :
  dirty_attrs st_user (Model_new User) = []
  ∧ Model_setattr env0 (Model_new User) "name" (VStr "jett") st_user
    = (Ok user_jett, st_jett)
  ∧ document env0 (Model_new User) st_jett
  ∧ i_dict (Model_new User) = []
  ∧ dirty_attrs st_jett (Model_new User) = ["name"].
Proof.
  split; [by vm_compute|]. split; [by vm_compute|].
  split; [apply (doc_new env0 user_jett st_jett), user_jett_document|].
  split; by vm_compute.
Qed.

(** The sharing stops at the class: a class registered later has a list
    of its own, which the operations on instances of [User] leave as it
    was. *)
Example other_model_type_unaffected name attrs c st' key v r st2 :
  ModelMetaclass_new name [model_ns] attrs st_jett = (Ok (Registered c), st')
  → Model_setattr env0 user_jett key v st' = (r, st2)
  → dirty_attrs st2 (Model_new c) = [].
Proof.
  intros Hreg Hset.
  rewrite (other_class_unaffected user_jett (Model_new c) st' st2).
  - by apply (ModelMetaclass_new_dirty_empty _ _ _ _ _ _ Hreg).
  - by eapply Model_setattr_step.
  - refine (ModelMetaclass_new_fresh_list _ _ _ _ _ _ _ _ Hreg).
    exists ["name"]. by vm_compute.
Qed.

(** C5 on a [User] whose name was set: the insert path. *)
Lemma C5_save_insert_or_update_witness :
  document env0 user_jett st_jett
  ∧ (validate_fields env0 user_jett st_jett).1 = Ok tt
  ∧ ∃ st' ev,
      save env0 user_jett st_jett = (Ok tt, st')
      ∧ dirty_attrs st' user_jett = []
      ∧ log st' = log st_jett ++ [LogValidatePassed; ev]
      ∧ if truthy (lists st_jett) (getattr_default user_jett "_id" VNone)
        then ∃ query,
               ev = LogUpdate (getattr_default user_jett "_id" VNone) query
               ∧ (∀ k, k ∈ dirty_attrs st_jett user_jett →
                       ∃ v, py_getattr user_jett k = Some v
                            ∧ dict_get query k = Some v)
               ∧ (∀ k, k ∉ dirty_attrs st_jett user_jett →
                       dict_get query k = None)
        else ∃ doc,
               ev = LogInsert (c_table (i_class user_jett)) doc
               ∧ ∀ k, dict_get doc k
                      = if dict_mem (c_mappings (i_class user_jett)) k
                           && negb (String.eqb k "_id")
                        then Some (getattr_default user_jett k VNone)
                        else None.
Proof.
  split; [exact user_jett_document|]. split; [vm_compute; reflexivity|].
  apply (C5_save_insert_or_update env0 user_jett st_jett);
    [exact user_jett_document | vm_compute; reflexivity].
Defined.

(** C5, as stated, fails: a [User] whose [_id] is [0] has an identity
    value, and validation passes, yet [save] takes the insert path and
    the record leaves [_id] out: the branch is chosen by the truth of
    [_id] (base.py 162). *)
Lemma C5_false_identity_takes_insert_path :
  document env0 user_zero st_zero
  ∧ py_getattr user_zero "_id" = Some (VInt 0)
  ∧ (validate_fields env0 user_zero st_zero).1 = Ok tt
  ∧ ∃ st',
      save env0 user_zero st_zero = (Ok tt, st')
      ∧ log st'
        = log st_zero
          ++ [LogValidatePassed;
              LogInsert (VStr "user")
                [("name", VStr "jett"); ("test_field", VInt (-9999))]].
Proof.
  split.
  { apply (doc_setattr env0 user_jett st_jett "_id" (VInt 0) (Ok user_zero)
             st_zero user_jett_document).
    vm_compute. reflexivity. }
  split; [reflexivity|]. split; [vm_compute; reflexivity|].
  eexists. split; [vm_compute; reflexivity|]. vm_compute. reflexivity.
Qed.

(** C6 on a [User] that was never written: [name] is [None], not a
    string. *)
Lemma C6_save_aborts_on_validation_failure_witness :
  (validate_fields env0 (Model_new User) st_user).1
  = Err (TypeError_not_instance VNone TStr)
  ∧ save env0 (Model_new User) st_user
    = (Err (TypeError_not_instance VNone TStr), st_user).
Proof.
  assert ((validate_fields env0 (Model_new User) st_user).1
          = Err (TypeError_not_instance VNone TStr)) as H
    by (vm_compute; reflexivity).
  split; [exact H|].
  destruct (C6_save_aborts_on_validation_failure env0 (Model_new User) st_user)
    as (_ & _ & Hsave).
  exact (proj1 (proj2 (Hsave _ H))).
Defined.

(** C7 fails on the code. A [User] whose [test_field] holds [None] gets
    [None] back, not the default [-9999], and nothing is stored; an
    [Event] that was never written gets the producer itself back, bound
    as a method, not the value it produces. *)
Theorem C7_truthy_default_not_resolved :
  (∃ u st2,
      Model_setattr env0 (Model_new User) "test_field" VNone st_user
      = (Ok u, st2)
      ∧ dict_get (c_mappings (i_class u)) "test_field" = Some test_field
      ∧ default test_field = VInt (-9999)
      ∧ getattr_default u "test_field" VNone = VNone
      ∧ get_value_or_default env0 u "test_field" st2 = (Ok (VNone, u), st2))
  ∧ dict_get (c_mappings Event) "created" = Some created_field
  ∧ callable (default created_field) = true
  ∧ py_call env0 (default created_field) [] [] = Ok (VInt 1700000000)
  ∧ i_dict (Model_new Event) = []
  ∧ get_value_or_default env0 (Model_new Event) "created" st_event
    = (Ok (VMethod "now", Model_new Event), st_event).
Proof.
  split.
  { eexists _, _. split; [by vm_compute|]. split; [by vm_compute|].
    split; [by vm_compute|]. split; by vm_compute. }
  split; [by vm_compute|]. split; [by vm_compute|]. split; [by vm_compute|].
  split; by vm_compute.
Qed.

(** C8 on the [name] field of a new [User], whose default is [None]. *)
Lemma C8_default_resolved_only_for_falsy_default_witness :
  dict_get (c_mappings (i_class (Model_new User))) "name" = Some name_field
  ∧ (truthy (lists st_user) (default name_field) = false →
     is_none (getattr_default (Model_new User) "name" VNone) = true →
     get_value_or_default env0 (Model_new User) "name" st_user
     = match (if callable (default name_field)
              then py_call env0 (default name_field) [] []
              else Ok (default name_field)) with
       | Ok v' =>
           match Model_setattr env0 (Model_new User) "name" v'
                   (mkState (lists st_user)
                      (log st_user ++ [LogUsingDefault "name" v'])) with
           | (Ok self', st') => (Ok (v', self'), st')
           | (Err e, st') => (Err e, st')
           end
       | Err e => (Err e, st_user)
       end).
Proof.
  split; [reflexivity|].
  apply (C8_default_resolved_only_for_falsy_default env0 (Model_new User)
           "name" name_field st_user).
  reflexivity.
Defined.

(** * Further properties *)

(** ** Registration: what the class receives *)

Section RegistrationMore.
Implicit Types (attrs l : list (string * value)) (acc : loop_vars)
  (st : state) (k name : string).

Lemma dict_set_fresh {V} (d : list (string * V)) k (v : V) :
  k ∉ dict_keys d → dict_set d k v = d ++ [(k, v)].
Proof.
  unfold dict_keys. induction d as [|[k' v'] d IH]; simpl; [done|].
  intros [Hne Hnin]%not_elem_of_cons.
  assert (String.eqb k' k = false) as -> by (apply String.eqb_neq; congruence).
  by rewrite IH.
Qed.

Lemma bookkeeping_false k :
  bookkeeping k = false →
  k ≠ "__mappings__" ∧ k ≠ "__table__" ∧ k ≠ "__pk__"
  ∧ k ≠ "__fields__" ∧ k ≠ "__modified__".
Proof.
  unfold bookkeeping. simpl. rewrite !orb_false_iff.
  intros (H1 & H2 & H3 & H4 & H5 & _).
  repeat split; by apply String.eqb_neq.
Qed.

Lemma class_namespace_other attrs mappings table pk fields modified k :
  bookkeeping k = false →
  dict_get (class_namespace attrs mappings table pk fields modified) k
  = dict_get attrs k.
Proof.
  intros (H1 & H2 & H3 & H4 & H5)%bookkeeping_false. unfold class_namespace.
  by rewrite !dict_get_set_ne.
Qed.

(** The loop sorts the entries it visits: descriptors into [mappings],
    the other names onto the list [fields]. *)
Lemma register_loop_partition fields l acc st acc' st' :
  NoDup (dict_keys (ls_mappings acc) ++ dict_keys l) →
  is_Some (lists st !! fields) →
  for_each (register_item fields) l acc st = (Ok acc', st') →
  ls_mappings acc' = ls_mappings acc ++ field_items l
  ∧ lists st' !!! fields = lists st !!! fields ++ plain_keys l
  ∧ is_Some (lists st' !! fields).
Proof.
  revert acc st. induction l as [|[k v] l IH]; intros acc st Hnd Hal.
  { intros [= <- <-]. simpl. by rewrite !app_nil_r. }
  rewrite for_each_cons.
  assert (NoDup (dict_keys (ls_mappings acc) ++ dict_keys l)) as Hnd'.
  { unfold dict_keys in *. simpl in Hnd.
    apply NoDup_app in Hnd as (H1 & H2 & [_ H3]%NoDup_cons).
    apply NoDup_app. split; [done|]. split; [|done].
    intros x Hx Hx'. apply (H2 x Hx). by right. }
  assert (k ∉ dict_keys (ls_mappings acc)) as Hk.
  { unfold dict_keys in *. simpl in Hnd.
    apply NoDup_app in Hnd as (_ & H2 & _). intros Hin.
    apply (H2 k Hin). by left. }
  destruct v;
    try (rewrite register_item_other by done; intros Hloop;
         apply IH in Hloop; [|done | simpl; rewrite lookup_insert_eq; eauto];
         destruct Hloop as (Hm & Hf & Ha); simpl in Hf;
         rewrite lookup_total_insert_eq in Hf;
         split; [done|]; split; [|done];
         rewrite Hf; simpl; by rewrite <- app_assoc).
  rewrite register_item_field. cbn zeta.
  destruct (pk f && pk_truthy (ls_pk acc)); [done|].
  intros Hloop. apply IH in Hloop; [| |done].
  - destruct Hloop as (Hm & Hf & Ha). simpl in Hm, Hf.
    rewrite dict_set_fresh in Hm by done.
    split; [by rewrite Hm, <- app_assoc|]. by split.
  - simpl. rewrite dict_set_fresh by done.
    unfold dict_keys in *. rewrite fmap_app, <- app_assoc. exact Hnd.
Qed.

Lemma register_loop_allocated fields l acc st p :
  is_Some (lists st !! p) →
  is_Some (lists (for_each (register_item fields) l acc st).2 !! p).
Proof.
  revert acc st. induction l as [|[k v] l IH]; intros acc st Hal; [done|].
  rewrite for_each_cons.
  destruct v;
    try (rewrite register_item_other by done; apply IH; simpl;
         destruct (decide (fields = p)) as [->|?];
         [rewrite lookup_insert_eq; eauto | by rewrite lookup_insert_ne]).
  rewrite register_item_field. cbn zeta.
  destruct (pk f && pk_truthy (ls_pk acc)); [done|]. by apply IH.
Qed.

(** The class, the loop and the final state of a successful
    registration. *)
Lemma ModelMetaclass_new_result name base attrs st c st' :
  ModelMetaclass_new name base attrs st = (Ok (Registered c), st') →
  name ≠ "Model"
  ∧ ∃ acc st2,
      for_each (register_item (fresh (dom (lists st))))
        (dict_set attrs "_id" (VField id_field))
        (mkLoop (dict_set attrs "_id" (VField id_field)) [] None)
        (loop_start name attrs st) = (Ok acc, st2)
      ∧ c = mkClass name base
              (class_namespace (ls_attrs acc) (ls_mappings acc)
                 (py_or (lists st)
                    (from_option id VNone (dict_get attrs "__table__"))
                    (VStr (lower name)))
                 "_id" (fresh (dom (lists st))) (fresh (dom (lists st2))))
              (ls_mappings acc)
              (py_or (lists st)
                 (from_option id VNone (dict_get attrs "__table__"))
                 (VStr (lower name)))
              "_id" (fresh (dom (lists st))) (fresh (dom (lists st2)))
      ∧ st' = mkState (<[fresh (dom (lists st2)) := []]> (lists st2))
                (log st2).
Proof.
  destruct (decide (name = "Model")) as [->|Hname]; [done|].
  split; [done|]. revert H. rewrite ModelMetaclass_new_unfold by done.
  cbn zeta.
  pose proof (register_loop_injected (fresh (dom (lists st))) attrs
                (mkLoop (dict_set attrs "_id" (VField id_field)) [] None)
                (loop_start name attrs st)) as Hloop.
  destruct (for_each _ _ _ _) as [[acc|e] st2]; simpl in *; [|done].
  destruct Hloop as [Hpk _]. rewrite Hpk. simpl. intros [= <- <-].
  by exists acc, st2.
Qed.

(** X1. With distinct names in the class body, registration sorts the
    namespace (after [_id] is bound to the identity descriptor):
    [__mappings__] holds exactly the entries that are field descriptors,
    in the order of the body, and the list [__fields__] exactly the
    names of the other entries, in the order of the body. *)
Theorem X1_registration_partitions_attributes name base attrs st c st' :
  NoDup (dict_keys attrs) →
  ModelMetaclass_new name base attrs st = (Ok (Registered c), st') →
  c_mappings c = field_items (dict_set attrs "_id" (VField id_field))
  ∧ lists st' !!! c_fields c
    = plain_keys (dict_set attrs "_id" (VField id_field))
  ∧ dict_get (c_dict c) "__fields__" = Some (VList (c_fields c)).
Proof.
  intros Hnd Hreg.
  destruct (ModelMetaclass_new_result _ _ _ _ _ _ Hreg)
    as (_ & acc & st2 & Hloop & -> & ->).
  apply (dict_keys_set_nodup _ "_id" (VField id_field)) in Hnd.
  apply register_loop_partition in Hloop as (Hm & Hf & Hal);
    [| done | unfold loop_start; simpl; rewrite lookup_insert_eq; eauto].
  simpl in *. split; [done|]. split.
  - rewrite lookup_total_insert_ne.
    + rewrite Hf. unfold loop_start. simpl.
      by rewrite lookup_total_insert_eq.
    + intros Heq. rewrite <- Heq in Hal. apply elem_of_dom in Hal.
      by apply is_fresh in Hal.
  - unfold class_namespace. rewrite dict_get_set_ne by done.
    apply dict_get_set_eq.
Qed.

(** The class attribute of a mapped name is the default of its
    descriptor; the other attributes are those of the body. *)
Lemma register_loop_defaults fields attrs st acc st' k :
  for_each (register_item fields) attrs (mkLoop attrs [] None) st
  = (Ok acc, st') →
  dict_get (ls_attrs acc) k
  = match dict_get (ls_mappings acc) k with
    | Some f => Some (default f)
    | None => dict_get attrs k
    end.
Proof.
  intros Hloop. revert k.
  apply (register_loop_invariant
           (λ a, ∀ k, dict_get (ls_attrs a) k
                      = match dict_get (ls_mappings a) k with
                        | Some f => Some (default f)
                        | None => dict_get attrs k
                        end)
           fields attrs (mkLoop attrs [] None) st acc);
    [| done | by rewrite Hloop].
  intros a k0 f Ha _ _ k. simpl. destruct (decide (k0 = k)) as [->|Hne].
  - by rewrite !dict_get_set_eq.
  - by rewrite !dict_get_set_ne.
Qed.

(** The attributes of a registered class, by cases on the name being
    mapped. *)
Lemma registered_class_attributes name base attrs st c st' k :
  ModelMetaclass_new name base attrs st = (Ok (Registered c), st') →
  bookkeeping k = false →
  match dict_get (c_mappings c) k with
  | Some f =>
      dict_get (c_dict c) k = Some (default f)
      ∧ py_getattr (Model_new c) k = Some (bind_attr (default f))
  | None => k ≠ "_id" ∧ dict_get (c_dict c) k = dict_get attrs k
  end.
Proof.
  intros Hreg Hk.
  pose proof (ModelMetaclass_new_wf name base attrs st c) as Hwf.
  rewrite Hreg in Hwf. specialize (Hwf eq_refl).
  destruct (ModelMetaclass_new_result _ _ _ _ _ _ Hreg)
    as (_ & acc & st2 & Hloop & -> & ->).
  simpl in *. rewrite class_namespace_other by done.
  rewrite (register_loop_defaults _ _ _ _ _ k Hloop).
  destruct (dict_get (ls_mappings acc) k) as [f|] eqn:Hf.
  - split; [done|]. unfold py_getattr. simpl.
    rewrite class_namespace_other by done.
    rewrite (register_loop_defaults _ _ _ _ _ k Hloop), Hf. done.
  - assert (k ≠ "_id") as Hid.
    { intros ->. apply andb_true_iff in Hwf as [Hid _].
      unfold dict_mem in Hid. simpl in Hid. by rewrite Hf in Hid. }
    split; [done|]. by rewrite dict_get_set_ne.
Qed.

(** X2. After registration, every mapped attribute other than the five
    bookkeeping names holds, on the class, the default of its
    descriptor, so that an instance that never wrote it reads that
    default (a function default reads as a bound method); an attribute
    that is not mapped is, on the class, what the body declared. *)
Theorem X2_class_attributes_hold_defaults name base attrs st c st' k :
  ModelMetaclass_new name base attrs st = (Ok (Registered c), st') →
  bookkeeping k = false →
  match dict_get (c_mappings c) k with
  | Some f =>
      dict_get (c_dict c) k = Some (default f)
      ∧ py_getattr (Model_new c) k = Some (bind_attr (default f))
  | None => k ≠ "_id" ∧ dict_get (c_dict c) k = dict_get attrs k
  end.
Proof. apply registered_class_attributes. Qed.

(** X3. Whatever the body declares under these names, after
    registration the class binds [__mappings__], [__table__], [__pk__],
    [__fields__] and [__modified__] to the computed schema: the mappings
    as a dict of descriptors, the primary key [_id], two distinct list
    objects, and the table. The table is the [__table__] of the body
    when that is a true value; when the body has none or a false one,
    and the class name is made of ASCII characters, it is the class name
    in lower case. *)
Theorem X3_schema_attributes_bound name base attrs st c st' :
  ModelMetaclass_new name base attrs st = (Ok (Registered c), st') →
  dict_get (c_dict c) "__mappings__"
  = Some (VDict (map (λ '(k, f), (k, VField f)) (c_mappings c)))
  ∧ dict_get (c_dict c) "__table__" = Some (c_table c)
  ∧ dict_get (c_dict c) "__pk__" = Some (VStr (c_pk c))
  ∧ c_pk c = "_id"
  ∧ dict_get (c_dict c) "__fields__" = Some (VList (c_fields c))
  ∧ dict_get (c_dict c) "__modified__" = Some (VList (c_modified c))
  ∧ c_fields c ≠ c_modified c
  ∧ (∀ t, dict_get attrs "__table__" = Some t →
          truthy (lists st) t = true → c_table c = t)
  ∧ (is_ascii name = true →
     (∀ t, dict_get attrs "__table__" = Some t →
           truthy (lists st) t = false) →
     c_table c = VStr (lower name)).
Proof.
  intros Hreg.
  destruct (ModelMetaclass_new_result _ _ _ _ _ _ Hreg)
    as (_ & acc & st2 & Hloop & -> & ->).
  simpl. unfold class_namespace.
  split; [by rewrite !dict_get_set_ne by done; rewrite dict_get_set_eq|].
  split; [by rewrite !dict_get_set_ne by done; rewrite dict_get_set_eq|].
  split; [by rewrite !dict_get_set_ne by done; rewrite dict_get_set_eq|].
  split; [done|].
  split; [by rewrite !dict_get_set_ne by done; rewrite dict_get_set_eq|].
  split; [by rewrite dict_get_set_eq|].
  split; [|split].
  - pose proof (register_loop_allocated (fresh (dom (lists st)))
                  (dict_set attrs "_id" (VField id_field))
                  (mkLoop (dict_set attrs "_id" (VField id_field)) [] None)
                  (loop_start name attrs st) (fresh (dom (lists st)))) as Hal.
    rewrite Hloop in Hal. simpl in Hal.
    rewrite lookup_insert_eq in Hal. specialize (Hal ltac:(eauto)).
    intros Heq. rewrite Heq in Hal. apply elem_of_dom in Hal.
    by apply is_fresh in Hal.
  - intros t Ht Htrue. unfold py_or. rewrite Ht. simpl. by rewrite Htrue.
  - intros _ Hfalse. unfold py_or.
    destruct (dict_get attrs "__table__") as [t|]; [|done].
    simpl. by rewrite (Hfalse t eq_refl).
Qed.

(** The typed variants never build a primary key. *)
Lemma typed_variant_not_pk (f : MongoField) : typed_variant f → pk f = false.
Proof.
  intros (h & n & d & r & u & tc & vd & H).
  unfold CommonField, StringField, IntegerField, BooleanField, FloatField,
    MongoField_init in H.
  destruct n; try (by destruct H as [H|[H|[H|[H|H]]]]).
  by destruct H as [[= <-]|[[= <-]|[[= <-]|[[= <-]|[= <-]]]]].
Qed.

(** Without primary-key descriptors the loop runs to its end and leaves
    [pk] as it was. *)
Lemma register_loop_no_pk fields l acc st :
  (∀ k (f : MongoField), (k, VField f) ∈ l → pk f = false) →
  ∃ acc' st',
    for_each (register_item fields) l acc st = (Ok acc', st')
    ∧ ls_pk acc' = ls_pk acc.
Proof.
  revert acc st. induction l as [|[k v] l IH]; intros acc st Hno.
  { by exists acc, st. }
  rewrite for_each_cons.
  assert (∀ k0 (f : MongoField), (k0, VField f) ∈ l → pk f = false) as Hno'
    by (intros ???; eapply Hno; by right).
  destruct v; try (rewrite register_item_other by done; by apply IH).
  rewrite register_item_field. cbn zeta.
  rewrite (Hno k f) by (by left). simpl.
  match goal with
  | |- context [for_each _ l ?a ?s] =>
      destruct (IH a s Hno') as (acc' & st' & -> & Hpk)
  end.
  by exists acc', st'.
Qed.

(** X4. A model other than [Model] whose body declares only descriptors
    built by the typed variants ([CommonField], [StringField],
    [IntegerField], [BooleanField], [FloatField]) always registers, with
    [_id] as its primary key. *)
Theorem X4_typed_variants_always_register name base attrs st :
  name ≠ "Model" →
  (∀ k (f : MongoField), (k, VField f) ∈ attrs → typed_variant f) →
  ∃ c st',
    ModelMetaclass_new name base attrs st = (Ok (Registered c), st')
    ∧ c_pk c = "_id".
Proof.
  intros Hname Hvar.
  assert (∀ k (f : MongoField), (k, VField f) ∈ attrs → pk f = false) as Hno
    by (intros k f Hin; eapply typed_variant_not_pk, Hvar, Hin).
  rewrite ModelMetaclass_new_unfold by done. cbn zeta.
  destruct (dict_set_split attrs "_id" (VField id_field))
    as (pre & post & Hsplit & _ & Hd).
  assert (∀ kv, kv ∈ pre ∨ kv ∈ post → kv ∈ attrs) as Hsub.
  { intros kv Hkv. destruct Hd as [[-> ->]|[v0 ->]].
    - destruct Hkv as [?|Hnil]; [done | by apply elem_of_nil in Hnil].
    - apply elem_of_app. destruct Hkv as [?|?]; [by left|].
      right. by right. }
  rewrite Hsplit, for_each_app.
  match goal with
  | |- context [for_each _ pre ?a ?s] =>
      destruct (register_loop_no_pk (fresh (dom (lists st))) pre a s)
        as (acc1 & st1 & -> & Hpk1)
  end.
  { intros k f Hin. apply (Hno k). apply Hsub. by left. }
  rewrite for_each_cons, register_item_field. cbn zeta.
  rewrite Hpk1. simpl.
  match goal with
  | |- context [for_each _ post ?a ?s] =>
      destruct (register_loop_no_pk (fresh (dom (lists st))) post a s)
        as (acc2 & st2 & -> & Hpk2)
  end.
  { intros k f Hin. apply (Hno k). apply Hsub. by right. }
  rewrite Hpk2. simpl. by eexists _, _.
Qed.

(** X5. When the body declares one primary-key descriptor, under a
    name that is neither empty nor [_id], and no [_id], registration
    raises the duplicate primary-key error naming [_id]: the injected
    identity descriptor comes last and is the one reported. *)
Theorem X5_duplicate_error_names_identity name base attrs st :
  name ≠ "Model" →
  dict_mem attrs "_id" = false →
  dict_mem attrs "" = false →
  primary_key_count attrs = 1%nat →
  (ModelMetaclass_new name base attrs st).1
  = Err (RuntimeError_duplicate_pk "_id").
Proof.
  intros Hname Hid Hempty Hone.
  rewrite ModelMetaclass_new_unfold by done. cbn zeta.
  assert ("_id" ∉ dict_keys attrs) as Hnin.
  { intros Hin%dict_mem_elem. congruence. }
  rewrite (dict_set_fresh attrs) by done. rewrite for_each_app.
  match goal with
  | |- context [for_each _ attrs ?a ?s] =>
      pose proof (register_loop_count (fresh (dom (lists st))) attrs a s)
        as Hcount;
      destruct (for_each _ attrs a s) as [[acc1|e] st1]
  end; simpl in Hcount.
  - rewrite for_each_cons, register_item_field. cbn zeta.
    destruct Hcount as (_ & Hseen & _); [| done |].
    { intros k v Hin _ ->. apply dict_keys_elem, dict_mem_elem in Hin.
      congruence. }
    unfold pk_seen in Hseen. simpl in Hseen. rewrite Hone in Hseen.
    destruct (pk_truthy (ls_pk acc1)); [done | discriminate].
  - unfold pk_seen in Hcount. simpl in Hcount. rewrite Hone in Hcount.
    assert (2 ≤ 1)%nat; [|lia]. apply Hcount; [|done].
    intros k v Hin _ ->. apply dict_keys_elem, dict_mem_elem in Hin.
    congruence.
Qed.
End RegistrationMore.

(** ** Document instances: reading, writing, saving *)

Section ModelMore.
Variable call_env : value -> list value -> list (string * value)
                    -> value + string * string.
Implicit Types (self : Instance) (st : state) (key k : string) (v : value).

(** A successful write, whatever the name. *)
Lemma Model_setattr_ok self key v st self' st' :
  Model_setattr call_env self key v st = (Ok self', st') →
  self' = mkInstance (i_class self) (dict_set (i_dict self) key v)
  ∧ (st' = st
     ∨ st' = mkState (<[c_modified (i_class self)
                        := lists st !!! c_modified (i_class self) ++ [key]]>
                        (lists st)) (log st)).
Proof.
  destruct (dict_get (c_mappings (i_class self)) key) as [f|] eqn:Hf.
  - rewrite (Model_setattr_mapped _ _ _ _ _ f) by done.
    destruct (MongoField_validate _ _ _ _ _); [|done].
    intros [= <- <-]. split; [done | by right].
  - rewrite Model_setattr_unmapped by done. intros [= <- <-].
    split; [done | by left].
Qed.

(** X6. Reading back what was written: after a write that returned,
    of a value other than [None], [get_value_or_default] on that
    attribute returns the value written and changes nothing, whatever
    the default of the descriptor. *)
Theorem X6_read_back_written_value self key v st self' st' :
  Model_setattr call_env self key v st = (Ok self', st') →
  is_none v = false →
  get_value_or_default call_env self' key st' = (Ok (v, self'), st').
Proof.
  intros Hset Hv. apply Model_setattr_ok in Hset as [-> _].
  unfold get_value_or_default, getattr_default.
  rewrite py_getattr_stored. simpl. by rewrite Hv.
Qed.

(** X7. [get_value_or_default] on an attribute that is not mapped and
    whose name is not of the form [__x__] returns its value when it has
    one other than [None] (on the instance, on the class or on a base),
    and raises [KeyError] otherwise (absent, or [None]); in both cases
    nothing changes. *)
Theorem X7_unmapped_read_raises_KeyError self key st :
  dict_get (c_mappings (i_class self)) key = None →
  dunder key = false →
  get_value_or_default call_env self key st
  = match py_getattr self key with
    | None | Some VNone => (Err (KeyError key), st)
    | Some v => (Ok (v, self), st)
    end.
Proof.
  intros Hf _. unfold get_value_or_default, getattr_default. rewrite Hf.
  destruct (py_getattr self key) as [[]|]; done.
Qed.

(** X8. A read that marks the attribute as modified: when a mapped
    attribute reads [None] and its descriptor has a false default that
    is not callable and passes [validate], [get_value_or_default]
    returns that default, logs it, stores it on the instance, and
    appends the attribute name to [__modified__]. *)
Theorem X8_resolving_default_marks_modified self key (field : MongoField) st :
  dict_get (c_mappings (i_class self)) key = Some field →
  is_none (getattr_default self key VNone) = true →
  truthy (lists st) (default field) = false →
  callable (default field) = false →
  MongoField_validate call_env (lists st) field (default field) [] = Ok tt →
  ∃ self' st',
    get_value_or_default call_env self key st
    = (Ok (default field, self'), st')
    ∧ py_getattr self' key = Some (default field)
    ∧ dirty_attrs st' self' = dirty_attrs st self ++ [key]
    ∧ log st' = log st ++ [LogUsingDefault key (default field)].
Proof.
  intros Hf Hnone Hfalsy Hcall Hval.
  unfold get_value_or_default. rewrite Hnone, Hf, bind_eq.
  unfold get_heap at 1. rewrite Hfalsy, Hcall. simpl.
  rewrite bind_eq. unfold ret at 1. rewrite bind_eq.
  unfold logging_debug at 1. rewrite bind_eq.
  rewrite (Model_setattr_mapped _ _ _ _ _ field) by done. simpl.
  rewrite Hval. eexists _, _. split; [done|].
  split; [apply py_getattr_stored|]. split; [|done].
  unfold dirty_attrs. simpl. by rewrite lookup_total_insert_eq.
Qed.

(** X9. [__str__] on a document instance never raises and changes
    nothing; the dict it renders has the mapped attributes with their
    current values ([None] when absent), without [_id] exactly when
    [_id] is a false value, and nothing else. *)
Theorem X9_str_renders_mapped_attributes self st :
  document call_env self st →
  ∃ doc,
    Model_str self st = (Ok doc, st)
    ∧ ∀ k, dict_get doc k
           = if dict_mem (c_mappings (i_class self)) k
                && (negb (String.eqb k "_id")
                    || truthy (lists st) (getattr_default self "_id" VNone))
             then Some (getattr_default self k VNone)
             else None.
Proof.
  intros Hdoc. destruct (document_invariant _ _ _ Hdoc) as (Hwf & _ & _).
  destruct (truthy (lists st) (getattr_default self "_id" VNone)) eqn:Hid.
  - apply andb_true_iff in Hwf as [Hmem _]. unfold Model_str.
    apply dict_mem_elem in Hmem.
    rewrite diction_get, bool_decide_eq_true_2 by done.
    unfold bind, get_heap. simpl. rewrite Hid. simpl.
    eexists. split; [done|]. intros k. rewrite diction_get, orb_true_r, andb_true_r.
    destruct (dict_mem (c_mappings (i_class self)) k) eqn:Hk.
    + rewrite bool_decide_eq_true_2; [done | by apply dict_mem_elem].
    + rewrite bool_decide_eq_false_2; [done|].
      intros H%dict_mem_elem. congruence.
  - destruct (Model_str_no_id self st Hwf Hid) as (doc & Hdoc' & Hget).
    exists doc. split; [done|]. intros k. rewrite Hget.
    by rewrite orb_false_r.
Qed.

(** The update branch of [save]. *)
Lemma save_update self st q :
  (validate_fields call_env self st).1 = Ok tt →
  truthy (lists st) (getattr_default self "_id" VNone) = true →
  set_query self (dirty_attrs st self) [] = Ok q →
  save call_env self st
  = (Ok tt,
     mkState (<[c_modified (i_class self) := []]> (lists st))
       (log st ++ [LogValidatePassed;
                   LogUpdate (getattr_default self "_id" VNone) q])).
Proof.
  intros Hval Hid Hq. unfold save.
  rewrite bind_eq, validate_fields_eq. rewrite validate_fields_eq in Hval.
  destruct (first_failure _ _ _ _) as [[]|]; [|done].
  rewrite bind_eq. unfold get_heap at 1. cbn [lists log]. rewrite Hid.
  unfold dirty_attrs in Hq. rewrite bind_eq. unfold lift at 1. rewrite Hq.
  rewrite bind_eq. unfold lift at 1. rewrite (getattr_truthy _ _ _ Hid).
  unfold bind, logging_debug, list_clear. simpl.
  by rewrite <- app_assoc.
Qed.

Lemma set_query_nodup self keys acc q :
  set_query self keys acc = Ok q →
  NoDup (dict_keys acc) → NoDup (dict_keys q).
Proof.
  revert acc. induction keys as [|k keys IH]; intros acc; simpl.
  { by intros [= <-]. }
  destruct (getattr self k); [|done]. intros Hq Hnd.
  eapply IH; [done|]. by apply dict_keys_set_nodup.
Qed.

(** The update payload of a document instance. *)
Lemma save_update_payload self st :
  document call_env self st →
  (validate_fields call_env self st).1 = Ok tt →
  truthy (lists st) (getattr_default self "_id" VNone) = true →
  ∃ q,
    save call_env self st
    = (Ok tt,
       mkState (<[c_modified (i_class self) := []]> (lists st))
         (log st ++ [LogValidatePassed;
                     LogUpdate (getattr_default self "_id" VNone) q]))
    ∧ NoDup (dict_keys q)
    ∧ ∀ k, dict_get q k
           = if bool_decide (k ∈ dirty_attrs st self) then py_getattr self k
             else None.
Proof.
  intros Hdoc Hval Hid.
  destruct (document_invariant _ _ _ Hdoc) as (Hwf & Hd & _).
  destruct (set_query_ok self (dirty_attrs st self) []) as (q & Hq & Hget).
  { intros k Hk. apply py_getattr_mapped; [done|].
    unfold dirty_mapped in Hd. rewrite forallb_forall in Hd.
    apply Hd. by apply list_elem_of_In. }
  exists q. split; [by apply save_update|]. split; [|done].
  eapply set_query_nodup; [done | constructor].
Qed.

(** X10. Writing a mapped attribute twice lists it twice in
    [__modified__]; the [$set] payload of the update that follows holds
    it once, with the value written last, and holds no name twice. *)
Theorem X10_repeated_write_sent_once self st key v1 v2 s1 st1 s2 st2 :
  document call_env self st →
  dict_mem (c_mappings (i_class self)) key = true →
  Model_setattr call_env self key v1 st = (Ok s1, st1) →
  Model_setattr call_env s1 key v2 st1 = (Ok s2, st2) →
  dirty_attrs st2 s2 = dirty_attrs st self ++ [key; key]
  ∧ ((validate_fields call_env s2 st2).1 = Ok tt →
     truthy (lists st2) (getattr_default s2 "_id" VNone) = true →
     ∃ q st3,
       save call_env s2 st2 = (Ok tt, st3)
       ∧ log st3 = log st2 ++ [LogValidatePassed;
                               LogUpdate (getattr_default s2 "_id" VNone) q]
       ∧ dict_get q key = Some v2
       ∧ NoDup (dict_keys q)
       ∧ dirty_attrs st3 s2 = []).
Proof.
  intros Hdoc Hmem Hset1 Hset2.
  pose proof (doc_setattr call_env _ _ _ _ _ _ Hdoc Hset1) as Hdoc1.
  pose proof (doc_setattr call_env _ _ _ _ _ _ Hdoc1 Hset2) as Hdoc2.
  simpl in Hdoc1, Hdoc2.
  unfold dict_mem in Hmem.
  destruct (dict_get (c_mappings (i_class self)) key) as [f|] eqn:Hf; [|done].
  rewrite (Model_setattr_mapped _ _ _ _ _ f) in Hset1 by done.
  destruct (MongoField_validate _ _ _ _ _) in Hset1; [|done].
  injection Hset1 as <- <-.
  rewrite (Model_setattr_mapped _ _ _ _ _ f) in Hset2 by done.
  destruct (MongoField_validate _ _ _ _ _) in Hset2; [|done].
  injection Hset2 as <- <-.
  assert (dirty_attrs
            (mkState
               (<[c_modified (i_class self)
                  := (<[c_modified (i_class self)
                       := lists st !!! c_modified (i_class self) ++ [key]]>
                       (lists st)) !!! c_modified (i_class self) ++ [key]]>
                  (<[c_modified (i_class self)
                     := lists st !!! c_modified (i_class self) ++ [key]]>
                     (lists st))) (log st))
            (mkInstance (i_class self)
               (dict_set (dict_set (i_dict self) key v1) key v2))
          = dirty_attrs st self ++ [key; key]) as Hdirty.
  { unfold dirty_attrs. simpl.
    rewrite !lookup_total_insert_eq. by rewrite <- app_assoc. }
  simpl in *. split; [exact Hdirty|].
  intros Hval Hid.
  destruct (save_update_payload _ _ Hdoc2 Hval Hid) as (q & Hsave & Hnd & Hget).
  eexists q, _. split; [exact Hsave|]. split; [done|]. split.
  - rewrite Hget, Hdirty. rewrite bool_decide_eq_true_2.
    + apply (py_getattr_stored
               (mkInstance (i_class self) (dict_set (i_dict self) key v1))).
    + apply elem_of_app. right. by left.
  - split; [done|]. unfold dirty_attrs. simpl.
    by rewrite lookup_total_insert_eq.
Qed.

(** X11. [save] on an instance that passes validation, has an identity
    and an empty [__modified__] still logs an update, with an empty
    [$set] payload. *)
Theorem X11_save_without_changes_sends_empty_update self st :
  (validate_fields call_env self st).1 = Ok tt →
  truthy (lists st) (getattr_default self "_id" VNone) = true →
  dirty_attrs st self = [] →
  ∃ st',
    save call_env self st = (Ok tt, st')
    ∧ log st' = log st ++ [LogValidatePassed;
                           LogUpdate (getattr_default self "_id" VNone) []].
Proof.
  intros Hval Hid Hempty.
  rewrite (save_update self st []); [| done | done | by rewrite Hempty].
  by eexists.
Qed.

(** A value that is true stays true when a name is appended to a list. *)
Lemma truthy_append (h : heap) l x v :
  truthy h v = true → truthy (<[l := h !!! l ++ [x]]> h) v = true.
Proof.
  destruct v as [| | | | | | | | | | |l']; try done. simpl.
  destruct (decide (l = l')) as [->|Hne].
  - rewrite lookup_total_insert_eq. intros _. by destruct (h !!! l').
  - by rewrite lookup_total_insert_ne.
Qed.

(** X12. The identity attribute takes any value: on a document
    instance whose [_id] descriptor is the identity descriptor, the
    write [self._id = v] always returns and marks [_id] as modified; when
    [v] is a true value and validation passes, the [save] that follows
    takes the update path under the identity [v], and [_id] itself is
    part of the [$set] payload. *)
Theorem X12_identity_write_selects_update self st v :
  document call_env self st →
  dict_get (c_mappings (i_class self)) "_id" = Some id_field →
  ∃ s1 st1,
    Model_setattr call_env self "_id" v st = (Ok s1, st1)
    ∧ dirty_attrs st1 s1 = dirty_attrs st self ++ ["_id"]
    ∧ (truthy (lists st) v = true →
       (validate_fields call_env s1 st1).1 = Ok tt →
       ∃ q st2,
         save call_env s1 st1 = (Ok tt, st2)
         ∧ log st2 = log st1 ++ [LogValidatePassed; LogUpdate v q]
         ∧ dict_get q "_id" = Some v).
Proof.
  intros Hdoc Hid.
  pose proof (Model_setattr_mapped call_env self "_id" v st id_field Hid)
    as Hset.
  change (MongoField_validate call_env (lists st) id_field v [])
    with (Ok tt : result unit) in Hset.
  eexists _, _. split; [exact Hset|].
  split; [by apply dirty_attrs_append|].
  intros Hv Hval.
  pose proof (doc_setattr call_env _ _ _ _ _ _ Hdoc Hset) as Hdoc1.
  simpl in Hdoc1.
  assert (getattr_default
            (mkInstance (i_class self) (dict_set (i_dict self) "_id" v))
            "_id" VNone = v) as Hcur.
  { unfold getattr_default. by rewrite py_getattr_stored. }
  destruct (save_update_payload _ _ Hdoc1 Hval) as (q & Hsave & _ & Hget).
  { rewrite Hcur. simpl. by apply truthy_append. }
  rewrite Hcur in Hsave. eexists q, _. split; [exact Hsave|].
  split; [done|]. rewrite Hget, bool_decide_eq_true_2.
  - apply py_getattr_stored.
  - rewrite (dirty_attrs_append st self) by done.
    apply elem_of_app. right. by left.
Qed.

(** X13. The names in [__modified__] of a document instance are mapped
    names of its class, each of them resolves by attribute lookup, and
    [_id] is among the mapped names: the dict comprehension of [save]
    and the [diction['_id']] of [__str__] cannot raise. *)
Theorem X13_modified_names_are_mapped self st :
  document call_env self st →
  dict_mem (c_mappings (i_class self)) "_id" = true
  ∧ (∀ k, dict_mem (c_mappings (i_class self)) k = true →
          is_Some (py_getattr self k))
  ∧ (∀ k, k ∈ dirty_attrs st self →
          dict_mem (c_mappings (i_class self)) k = true)
  ∧ ∃ q, set_query self (dirty_attrs st self) [] = Ok q.
Proof.
  intros Hdoc. destruct (document_invariant _ _ _ Hdoc) as (Hwf & Hd & _).
  assert (∀ k, k ∈ dirty_attrs st self →
               dict_mem (c_mappings (i_class self)) k = true) as Hmapped.
  { intros k Hk. unfold dirty_mapped in Hd. rewrite forallb_forall in Hd.
    apply Hd. by apply list_elem_of_In. }
  split; [by apply andb_true_iff in Hwf as [? _]|].
  split; [intros k Hk; by apply py_getattr_mapped|].
  split; [done|].
  destruct (set_query_ok self (dirty_attrs st self) []) as (q & Hq & _).
  { intros k Hk. apply py_getattr_mapped; [done|]. by apply Hmapped. }
  by exists q.
Qed.

(** X14. Dirty tracking does not cross model types: the class statement
    of another model gives it a list object of its own and leaves the
    [__modified__] of an existing document instance as it was; no write,
    read or save on an instance of either class changes the
    [__modified__] seen by the instances of the other. *)
Theorem X14_model_types_do_not_share self st name base attrs b st1 :
  document call_env self st →
  ModelMetaclass_new name base attrs st = (Ok (Registered b), st1) →
  c_modified b ≠ c_modified (i_class self)
  ∧ dirty_attrs st1 self = dirty_attrs st self
  ∧ ∀ (one other : Instance),
      (i_class one = b ∧ i_class other = i_class self)
      ∨ (i_class one = i_class self ∧ i_class other = b) →
      (∀ key v s r s',
          Model_setattr call_env one key v s = (r, s') →
          dirty_attrs s' other = dirty_attrs s other)
      ∧ (∀ key s r s',
            get_value_or_default call_env one key s = (r, s') →
            dirty_attrs s' other = dirty_attrs s other)
      ∧ (∀ s r s',
            save call_env one s = (r, s') →
            dirty_attrs s' other = dirty_attrs s other).
Proof.
  intros Hdoc Hreg. destruct (document_invariant _ _ _ Hdoc) as (_ & _ & Hal).
  pose proof (ModelMetaclass_new_fresh_list _ _ _ _ _ _ _ Hal Hreg) as Hne.
  split; [done|]. split.
  { unfold dirty_attrs. rewrite !lookup_total_alt.
    pose proof (ModelMetaclass_new_frame name base attrs st _ Hal) as Hfr.
    rewrite Hreg in Hfr. simpl in Hfr. by rewrite Hfr. }
  intros one other Hcls.
  assert (c_modified (i_class other) ≠ c_modified (i_class one)) as Hne'.
  { destruct Hcls as [[-> ->]|[-> ->]]; congruence. }
  split; [|split].
  - intros key v s r s' Hop. eapply other_class_unaffected; [|done].
    by eapply Model_setattr_step.
  - intros key s r s' Hop. eapply other_class_unaffected; [|done].
    by eapply get_value_or_default_step.
  - intros s r s' Hop. eapply other_class_unaffected; [|done].
    by eapply save_step.
Qed.

(** X15. A new instance cannot be saved while a type-checked field has
    a default of another type (such as the [None] the typed variants
    default to): if a mapped attribute, other than the bookkeeping
    names, has [type_check] on and a default whose value as read through
    an instance is not of the field type, [save] on a new instance
    raises and leaves the state as it was. *)
Theorem X15_new_instance_with_mistyped_default_not_saved
    name base attrs st c st' k (f : MongoField) st2 :
  ModelMetaclass_new name base attrs st = (Ok (Registered c), st') →
  dict_get (c_mappings c) k = Some f →
  bookkeeping k = false →
  type_check f = true →
  isinstance (bind_attr (default f)) (field_type f) = false →
  ∃ e, save call_env (Model_new c) st2 = (Err e, st2).
Proof.
  intros Hreg Hf Hk Htc Hinst.
  pose proof (registered_class_attributes _ _ _ _ _ _ k Hreg Hk) as Hattr.
  rewrite Hf in Hattr. destruct Hattr as [_ Hget].
  destruct ((validate_fields call_env (Model_new c) st2).1) as [[]|e]
    eqn:Hval.
  - exfalso. rewrite validate_fields_eq in Hval.
    destruct (first_failure _ _ _ _) as [[]|] eqn:Hff; [|done].
    apply first_failure_ok in Hff. rewrite Forall_forall in Hff.
    specialize (Hff (k, f) (dict_get_Some_elem _ _ _ Hf)).
    unfold field_check, MongoField_validate, getattr_default in Hff.
    simpl in Hff. rewrite Hget in Hff. simpl in Hff.
    by rewrite Htc, Hinst in Hff.
  - exists e. by apply save_validation_failure.
Qed.


(** X17. The list is the class's: a validated write through one
    instance shows in the [__modified__] of every instance of the class;
    an update saved through another instance then carries that name,
    with the value the saving instance itself has for it, and empties
    the list for all of them. *)
Theorem X17_instances_of_a_class_share_modified
    self other key v st other' st1 :
  document call_env self st →
  i_class other = i_class self →
  dict_mem (c_mappings (i_class self)) key = true →
  Model_setattr call_env other key v st = (Ok other', st1) →
  dirty_attrs st1 self = dirty_attrs st self ++ [key]
  ∧ ((validate_fields call_env self st1).1 = Ok tt →
     truthy (lists st1) (getattr_default self "_id" VNone) = true →
     ∃ q st2,
       save call_env self st1 = (Ok tt, st2)
       ∧ log st2 = log st1 ++ [LogValidatePassed;
                               LogUpdate (getattr_default self "_id" VNone) q]
       ∧ dict_get q key = py_getattr self key
       ∧ dirty_attrs st2 other' = []).
Proof.
  intros Hdoc Hcls Hmem Hset.
  destruct (document_invariant _ _ _ Hdoc) as (Hwf & Hd & _).
  unfold dict_mem in Hmem. rewrite <- Hcls in Hmem.
  destruct (dict_get (c_mappings (i_class other)) key) as [f|] eqn:Hf;
    [|done].
  rewrite (Model_setattr_mapped _ _ _ _ _ f) in Hset by done.
  destruct (MongoField_validate _ _ _ _ _) in Hset; [|done].
  injection Hset as <- <-.
  assert (dirty_attrs
            (mkState (<[c_modified (i_class other)
                        := lists st !!! c_modified (i_class other) ++ [key]]>
                        (lists st)) (log st)) self
          = dirty_attrs st self ++ [key]) as Hdirty.
  { unfold dirty_attrs. simpl. rewrite Hcls.
    by rewrite lookup_total_insert_eq. }
  split; [exact Hdirty|]. intros Hval Hid.
  destruct (set_query_ok self (dirty_attrs st self ++ [key]) [])
    as (q & Hq & Hget).
  { intros k [Hk|Hk%list_elem_of_singleton]%elem_of_app;
      apply py_getattr_mapped; try done.
    - unfold dirty_mapped in Hd. rewrite forallb_forall in Hd.
      apply Hd. by apply list_elem_of_In.
    - subst k. unfold dict_mem. rewrite <- Hcls. by rewrite Hf. }
  rewrite <- Hdirty in Hq.
  eexists q, _. split; [by apply save_update|]. split; [done|]. split.
  - rewrite Hget, bool_decide_eq_true_2; [done|].
    apply elem_of_app. right. by left.
  - unfold dirty_attrs. simpl. rewrite Hcls.
    by rewrite lookup_total_insert_eq.
Qed.
End ModelMore.

(** ** Construction of descriptors *)

(** X18. [MongoField(...)] returns a descriptor exactly when
    [field_name] is a [str] and [field_type] a type; the name is
    checked first. The descriptor keeps name, type, default and
    validator as given and the truth values of the four flags. *)
Theorem X18_MongoField_init_checks (h : heap)
    (name type dflt pkv req uniq tc vd : value) :
  is_ok (MongoField_init h name type dflt pkv req uniq tc vd)
  = isinstance name TStr && isinstance type TType
  ∧ (isinstance name TStr = false →
     MongoField_init h name type dflt pkv req uniq tc vd
     = Err TypeError_field_name)
  ∧ (isinstance name TStr = true → isinstance type TType = false →
     MongoField_init h name type dflt pkv req uniq tc vd
     = Err TypeError_field_type)
  ∧ ∀ f, MongoField_init h name type dflt pkv req uniq tc vd = Ok f →
         name = VStr (field_name f) ∧ type = VType (field_type f)
         ∧ default f = dflt ∧ validation f = vd
         ∧ pk f = truthy h pkv ∧ required f = truthy h req
         ∧ unique f = truthy h uniq ∧ type_check f = truthy h tc.
Proof.
  unfold MongoField_init.
  destruct name; try (by repeat split);
    destruct type; try (by repeat split).
  repeat split; try done; by injection H as <-.
Qed.

(** ** The further properties on the example classes *)

Lemma user_body_nodup : NoDup (dict_keys user_body).
Proof. apply (bool_decide_unpack _). vm_compute. exact I. Defined.

Lemma User_class_statement :
  ModelMetaclass_new "User" [model_ns] user_body st0
  = (Ok (Registered User), st_user).
Proof. vm_compute. reflexivity. Defined.

(** X1 on the class statement of [User]. *)
Lemma X1_registration_partitions_attributes_witness :
  NoDup (dict_keys user_body)
  ∧ ModelMetaclass_new "User" [model_ns] user_body st0
    = (Ok (Registered User), st_user)
  ∧ c_mappings User
    = field_items (dict_set user_body "_id" (VField id_field))
  ∧ lists st_user !!! c_fields User
    = plain_keys (dict_set user_body "_id" (VField id_field))
  ∧ dict_get (c_dict User) "__fields__" = Some (VList (c_fields User)).
Proof.
  split; [exact user_body_nodup|]. split; [exact User_class_statement|].
  apply (X1_registration_partitions_attributes "User" [model_ns] user_body
           st0 User st_user user_body_nodup User_class_statement).
Defined.

(** X2 on the attribute [test_field] of [User]. *)
Lemma X2_class_attributes_hold_defaults_witness :
  ModelMetaclass_new "User" [model_ns] user_body st0
  = (Ok (Registered User), st_user)
  ∧ bookkeeping "test_field" = false
  ∧ match dict_get (c_mappings User) "test_field" with
    | Some f =>
        dict_get (c_dict User) "test_field" = Some (default f)
        ∧ py_getattr (Model_new User) "test_field"
          = Some (bind_attr (default f))
    | None =>
        "test_field" ≠ "_id"
        ∧ dict_get (c_dict User) "test_field"
          = dict_get user_body "test_field"
    end.
Proof.
  split; [exact User_class_statement|]. split; [reflexivity|].
  apply (X2_class_attributes_hold_defaults "User" [model_ns] user_body st0
           User st_user "test_field" User_class_statement).
  reflexivity.
Defined.

(** X3 on the class statement of [User]. *)
Lemma X3_schema_attributes_bound_witness :
  ModelMetaclass_new "User" [model_ns] user_body st0
  = (Ok (Registered User), st_user)
  ∧ dict_get (c_dict User) "__table__" = Some (c_table User)
  ∧ c_fields User ≠ c_modified User
  ∧ c_table User = VStr (lower "User").
Proof.
  split; [exact User_class_statement|].
  destruct (X3_schema_attributes_bound "User" [model_ns] user_body st0 User
              st_user User_class_statement)
    as (_ & Htable & _ & _ & _ & _ & Hne & _ & Hlower).
  split; [exact Htable|]. split; [exact Hne|].
  apply Hlower; [reflexivity|]. intros t Ht. discriminate Ht.
Defined.

(** X4 on the body of [User], built with [StringField] and
    [CommonField]. *)
Lemma X4_typed_variants_always_register_witness :
  "User" ≠ "Model"
  ∧ (∀ k (f : MongoField), (k, VField f) ∈ user_body → typed_variant f)
  ∧ ∃ c st',
      ModelMetaclass_new "User" [model_ns] user_body st0
      = (Ok (Registered c), st')
      ∧ c_pk c = "_id".
Proof.
  assert (∀ k (f : MongoField), (k, VField f) ∈ user_body → typed_variant f)
    as Hvar.
  { intros k f Hin. unfold user_body in Hin.
    apply elem_of_cons in Hin as [[=]|Hin].
    apply elem_of_cons in Hin as [[=]|Hin].
    apply elem_of_cons in Hin as [[= -> ->]|Hin];
      [|apply elem_of_cons in Hin as [[= -> ->]|Hin]].
    - exists ∅, (VStr "user_name"), VNone, (VBool false), (VBool false),
        (VBool true), VNone. right. left. reflexivity.
    - exists ∅, (VStr "test"), (VInt (-9999)), (VBool false), (VBool false),
        (VBool false), VNone. left. reflexivity.
    - by apply elem_of_nil in Hin. }
  split; [discriminate|]. split; [exact Hvar|].
  apply (X4_typed_variants_always_register "User" [model_ns] user_body st0);
    [discriminate | exact Hvar].
Defined.

(** X5 on a body that declares [uid] as its primary key. *)
Lemma X5_duplicate_error_names_identity_witness :
  "Member" ≠ "Model"
  ∧ dict_mem member_body "_id" = false
  ∧ dict_mem member_body "" = false
  ∧ primary_key_count member_body = 1%nat
  ∧ (ModelMetaclass_new "Member" [model_ns] member_body st0).1
    = Err (RuntimeError_duplicate_pk "_id").
Proof.
  split; [discriminate|]. do 3 (split; [reflexivity|]).
  apply X5_duplicate_error_names_identity;
    [discriminate | reflexivity | reflexivity | reflexivity].
Defined.

Lemma user_jett_write :
  Model_setattr env0 (Model_new User) "name" (VStr "jett") st_user
  = (Ok user_jett, st_jett).
Proof. vm_compute. reflexivity. Defined.

(** X6 on the name written to a new [User]. *)
Lemma X6_read_back_written_value_witness :
  Model_setattr env0 (Model_new User) "name" (VStr "jett") st_user
  = (Ok user_jett, st_jett)
  ∧ is_none (VStr "jett") = false
  ∧ get_value_or_default env0 user_jett "name" st_jett
    = (Ok (VStr "jett", user_jett), st_jett).
Proof.
  split; [exact user_jett_write|]. split; [reflexivity|].
  apply (X6_read_back_written_value env0 (Model_new User) "name" (VStr "jett")
           st_user user_jett st_jett user_jett_write).
  reflexivity.
Defined.

(** X7 on an attribute [User] does not map. *)
Lemma X7_unmapped_read_raises_KeyError_witness :
  dict_get (c_mappings (i_class (Model_new User))) "nickname" = None
  ∧ dunder "nickname" = false
  ∧ get_value_or_default env0 (Model_new User) "nickname" st_user
    = (Err (KeyError "nickname"), st_user).
Proof.
  split; [reflexivity|]. split; [reflexivity|].
  apply (X7_unmapped_read_raises_KeyError env0 (Model_new User) "nickname"
           st_user); reflexivity.
Defined.

(** X8 on the [_id] of a new [User]: reading it marks it as modified. *)
Lemma X8_resolving_default_marks_modified_witness :
  dict_get (c_mappings (i_class (Model_new User))) "_id" = Some id_field
  ∧ is_none (getattr_default (Model_new User) "_id" VNone) = true
  ∧ truthy (lists st_user) (default id_field) = false
  ∧ callable (default id_field) = false
  ∧ MongoField_validate env0 (lists st_user) id_field (default id_field) []
    = Ok tt
  ∧ ∃ self' st',
      get_value_or_default env0 (Model_new User) "_id" st_user
      = (Ok (default id_field, self'), st')
      ∧ py_getattr self' "_id" = Some (default id_field)
      ∧ dirty_attrs st' self' = dirty_attrs st_user (Model_new User) ++ ["_id"]
      ∧ log st' = log st_user ++ [LogUsingDefault "_id" (default id_field)].
Proof.
  do 5 (split; [reflexivity|]).
  apply (X8_resolving_default_marks_modified env0 (Model_new User) "_id"
           id_field st_user); reflexivity.
Defined.

(** X9 on the [User] whose name was set. *)
Lemma X9_str_renders_mapped_attributes_witness :
  document env0 user_jett st_jett
  ∧ ∃ doc,
      Model_str user_jett st_jett = (Ok doc, st_jett)
      ∧ ∀ k, dict_get doc k
             = if dict_mem (c_mappings (i_class user_jett)) k
                  && (negb (String.eqb k "_id")
                      || truthy (lists st_jett)
                           (getattr_default user_jett "_id" VNone))
               then Some (getattr_default user_jett k VNone)
               else None.
Proof.
  split; [exact user_jett_document|].
  apply (X9_str_renders_mapped_attributes env0 user_jett st_jett
           user_jett_document).
Defined.

Lemma user_stored_document : document env0 user_stored st_stored.
Proof.
  apply (doc_setattr env0 user_jett st_jett "_id" user_oid (Ok user_stored)
           st_stored user_jett_document).
  vm_compute. reflexivity.
Defined.

Lemma user_ann_write :
  Model_setattr env0 user_stored "name" (VStr "ann") st_stored
  = (Ok user_ann, st_ann).
Proof. vm_compute. reflexivity. Defined.

Lemma user_bob_write :
  Model_setattr env0 user_ann "name" (VStr "bob") st_ann
  = (Ok user_bob, st_bob).
Proof. vm_compute. reflexivity. Defined.

(** X10 on the stored [User], renamed twice. *)
Lemma X10_repeated_write_sent_once_witness :
  document env0 user_stored st_stored
  ∧ dict_mem (c_mappings (i_class user_stored)) "name" = true
  ∧ Model_setattr env0 user_stored "name" (VStr "ann") st_stored
    = (Ok user_ann, st_ann)
  ∧ Model_setattr env0 user_ann "name" (VStr "bob") st_ann
    = (Ok user_bob, st_bob)
  ∧ dirty_attrs st_bob user_bob
    = dirty_attrs st_stored user_stored ++ ["name"; "name"].
Proof.
  split; [exact user_stored_document|]. split; [reflexivity|].
  split; [exact user_ann_write|]. split; [exact user_bob_write|].
  apply (X10_repeated_write_sent_once env0 user_stored st_stored "name"
           (VStr "ann") (VStr "bob") user_ann st_ann user_bob st_bob
           user_stored_document eq_refl user_ann_write user_bob_write).
Defined.

(** X11 on the stored [User] saved a second time. *)
Lemma X11_save_without_changes_sends_empty_update_witness :
  (validate_fields env0 user_stored st_saved).1 = Ok tt
  ∧ truthy (lists st_saved) (getattr_default user_stored "_id" VNone) = true
  ∧ dirty_attrs st_saved user_stored = []
  ∧ ∃ st',
      save env0 user_stored st_saved = (Ok tt, st')
      ∧ log st' = log st_saved
                  ++ [LogValidatePassed;
                      LogUpdate (getattr_default user_stored "_id" VNone) []].
Proof.
  split; [vm_compute; reflexivity|]. split; [vm_compute; reflexivity|].
  split; [vm_compute; reflexivity|].
  apply (X11_save_without_changes_sends_empty_update env0 user_stored
           st_saved); vm_compute; reflexivity.
Defined.

(** X12 on the [User] whose name was set, given an identity. *)
Lemma X12_identity_write_selects_update_witness :
  document env0 user_jett st_jett
  ∧ dict_get (c_mappings (i_class user_jett)) "_id" = Some id_field
  ∧ ∃ s1 st1,
      Model_setattr env0 user_jett "_id" user_oid st_jett = (Ok s1, st1)
      ∧ dirty_attrs st1 s1 = dirty_attrs st_jett user_jett ++ ["_id"]
      ∧ (truthy (lists st_jett) user_oid = true →
         (validate_fields env0 s1 st1).1 = Ok tt →
         ∃ q st2,
           save env0 s1 st1 = (Ok tt, st2)
           ∧ log st2 = log st1 ++ [LogValidatePassed; LogUpdate user_oid q]
           ∧ dict_get q "_id" = Some user_oid).
Proof.
  split; [exact user_jett_document|]. split; [reflexivity|].
  apply (X12_identity_write_selects_update env0 user_jett st_jett user_oid
           user_jett_document).
  reflexivity.
Defined.

(** X13 on the [User] whose name was set. *)
Lemma X13_modified_names_are_mapped_witness :
  document env0 user_jett st_jett
  ∧ dict_mem (c_mappings (i_class user_jett)) "_id" = true
  ∧ ∃ q, set_query user_jett (dirty_attrs st_jett user_jett) [] = Ok q.
Proof.
  split; [exact user_jett_document|].
  destruct (X13_modified_names_are_mapped env0 user_jett st_jett
              user_jett_document) as (Hid & _ & _ & Hq).
  exact (conj Hid Hq).
Defined.

Lemma Event_later_class_statement :
  ModelMetaclass_new "Event" [model_ns] event_body st_jett
  = (Ok (Registered Event_later), st_event_later).
Proof. vm_compute. reflexivity. Defined.

(** X14 on [User] and an [Event] class declared after it. *)
Lemma X14_model_types_do_not_share_witness :
  document env0 user_jett st_jett
  ∧ ModelMetaclass_new "Event" [model_ns] event_body st_jett
    = (Ok (Registered Event_later), st_event_later)
  ∧ c_modified Event_later ≠ c_modified (i_class user_jett)
  ∧ dirty_attrs st_event_later user_jett = dirty_attrs st_jett user_jett.
Proof.
  split; [exact user_jett_document|].
  split; [exact Event_later_class_statement|].
  destruct (X14_model_types_do_not_share env0 user_jett st_jett "Event"
              [model_ns] event_body Event_later st_event_later
              user_jett_document Event_later_class_statement)
    as (Hne & Hsame & _).
  exact (conj Hne Hsame).
Defined.

(** X15 on a new [User]: [name] is type-checked and defaults to [None]. *)
Lemma X15_new_instance_with_mistyped_default_not_saved_witness :
  ModelMetaclass_new "User" [model_ns] user_body st0
  = (Ok (Registered User), st_user)
  ∧ dict_get (c_mappings User) "name" = Some name_field
  ∧ bookkeeping "name" = false
  ∧ type_check name_field = true
  ∧ isinstance (bind_attr (default name_field)) (field_type name_field)
    = false
  ∧ ∃ e, save env0 (Model_new User) st_user = (Err e, st_user).
Proof.
  split; [exact User_class_statement|]. do 4 (split; [reflexivity|]).
  apply (X15_new_instance_with_mistyped_default_not_saved env0 "User"
           [model_ns] user_body st0 User st_user "name" name_field st_user
           User_class_statement); reflexivity.
Defined.



Lemma user_zed_write :
  Model_setattr env0 (Model_new User) "name" (VStr "zed") st_stored
  = (Ok user_zed, st_zed).
Proof. vm_compute. reflexivity. Defined.

(** X17 on the stored [User] and a second [User] written after it. *)
Lemma X17_instances_of_a_class_share_modified_witness :
  document env0 user_stored st_stored
  ∧ i_class (Model_new User) = i_class user_stored
  ∧ dict_mem (c_mappings (i_class user_stored)) "name" = true
  ∧ Model_setattr env0 (Model_new User) "name" (VStr "zed") st_stored
    = (Ok user_zed, st_zed)
  ∧ dirty_attrs st_zed user_stored
    = dirty_attrs st_stored user_stored ++ ["name"].
Proof.
  split; [exact user_stored_document|]. split; [reflexivity|].
  split; [reflexivity|]. split; [exact user_zed_write|].
  apply (X17_instances_of_a_class_share_modified env0 user_stored
           (Model_new User) "name" (VStr "zed") st_stored user_zed st_zed
           user_stored_document eq_refl eq_refl user_zed_write).
Defined.
